(** * Prince King Pizza: the order server ([server.js])

    A shallow embedding of the Express handlers of [server.js] and of the
    parts of the JavaScript run time and of the document store that they
    rely on, followed by the properties of the handlers.

    - [JS]: JSON values and the coercions the handlers trigger
      ([ToString], [ToNumber], [+], [*], [-], [||], property reads),
      dictionaries with [Object.entries], and the stable [sort].
      Numbers are IEEE 754 doubles.
    - [JSDate]: the time values of ECMAScript's [Date], with [setDate]
      and [setMonth] in the server's local time.
    - [Order], [Manager]: the two collections, with the casts of the
      schemas declared in [server.js].
    - [Section Server]: the handlers.
    - [Section Specification]: the words of the specification.
    - [Section Properties]: what the handlers guarantee, then worked
      examples.  *)

From Stdlib Require Import ZArith List String Ascii Bool Lia.
From Stdlib Require Import Permutation Sorted.
From Stdlib Require Import Floats.PrimFloat Floats.FloatOps Floats.SpecFloat.
Import ListNotations.
Open Scope string_scope.
Open Scope Z_scope.
Set Warnings "-register-all".

(* ================================================================== *)
(** * JavaScript values *)

Module JS.

(** Numbers are the doubles of the machine: [+], [*] and [-] below are
    [PrimFloat.add], [PrimFloat.mul] and [PrimFloat.sub], with their
    rounding, their infinities and [NaN]. *)
Definition number : Type := float.

(** The values a handler can meet: what [JSON.parse] builds, [undefined]
    (a missing property) and the built-in functions an object inherits
    from [Object.prototype].  An object lists its own properties in the
    order of their creation; when a key is repeated, as no object built
    by [JSON.parse] does, the first entry is the property. *)
Inductive value : Type :=
| VUndef
| VNull
| VBool (b : bool)
| VNum (n : number)
| VStr (s : string)
| VArr (elems : list value)
| VObj (props : list (string * value))
| VFun (name : string).

(** What [a + b] can yield: a number or a string. *)
Inductive prim : Type :=
| PNum (n : number)
| PStr (s : string).

Definition of_prim (p : prim) : value :=
  match p with
  | PNum n => VNum n
  | PStr s => VStr s
  end.

(** Exceptions thrown by the run time or by the store. *)
Inductive error : Type :=
| TypeError
| StoreError.

Inductive result (A : Type) : Type :=
| Ok (a : A)
| Throw (e : error).
Arguments Ok {A} a.
Arguments Throw {A} e.

Definition bind {A B : Type} (r : result A) (k : A -> result B) : result B :=
  match r with
  | Ok a => k a
  | Throw e => Throw e
  end.

Notation "x <- r ;; k" := (bind r (fun x => k))
  (at level 61, r at next level, right associativity).

(** Own properties of an object, in insertion order. *)
Fixpoint lookup {A : Type} (props : list (string * A)) (k : string) : option A :=
  match props with
  | [] => None
  | (k', v) :: rest => if String.eqb k' k then Some v else lookup rest k
  end.

(** [o[k] = v] on own data properties: replace in place, or append. *)
Fixpoint set {A : Type} (props : list (string * A)) (k : string) (v : A)
  : list (string * A) :=
  match props with
  | [] => [(k, v)]
  | (k', v') :: rest =>
      if String.eqb k' k then (k', v) :: rest else (k', v') :: set rest k v
  end.

(** [v.k] for the keys the handlers read ([items], [price], [qty], [name]):
    none of them is a built-in property of a string, number, boolean or
    array, so only object literals can hold them.  Reading a property of
    [undefined] or [null] throws. *)
Definition getProp (v : value) (k : string) : result value :=
  match v with
  | VUndef | VNull => Throw TypeError
  | VObj props => Ok (match lookup props k with Some x => x | None => VUndef end)
  | _ => Ok VUndef
  end.

Definition join (sep : string) (parts : list string) : string :=
  match parts with
  | [] => ""
  | p :: ps => fold_left (fun acc q => acc ++ sep ++ q) ps p
  end.

(** Truthiness, as tested by [||] and [!]: a number is falsy when it is
    [0], [-0] or [NaN]. *)
Definition truthy (v : value) : bool :=
  match v with
  | VUndef | VNull => false
  | VBool b => b
  | VNum n => negb (is_zero n || is_nan n)
  | VStr s => negb (String.eqb s "")
  | VArr _ | VObj _ | VFun _ => true
  end.

(** [a || b] *)
Definition js_or (a b : value) : value := if truthy a then a else b.

(** ** Plain objects used as dictionaries ([const dishCount = {}])

    The values written are results of [+].  A read of a key falls back
    on [Object.prototype]; a write creates or updates an own property,
    except for [__proto__], whose inherited setter ignores the primitive
    values written here. *)
Definition object_prototype_methods : list string :=
  ["__defineGetter__"; "__defineSetter__"; "hasOwnProperty";
   "__lookupGetter__"; "__lookupSetter__"; "isPrototypeOf";
   "propertyIsEnumerable"; "toString"; "valueOf"; "toLocaleString"].

Definition inherited (k : string) : value :=
  if String.eqb k "__proto__" then VObj []
  else if String.eqb k "constructor" then VFun "Object"
  else if existsb (String.eqb k) object_prototype_methods then VFun k
  else VUndef.

Definition obj_get (props : list (string * prim)) (k : string) : value :=
  match lookup props k with
  | Some v => of_prim v
  | None => inherited k
  end.

Definition obj_set (props : list (string * prim)) (k : string) (v : prim)
  : list (string * prim) :=
  if String.eqb k "__proto__" then props else set props k v.

(** Array indices: the canonical decimal strings of [0 .. 2^32 - 2]. *)
Definition is_digit (c : ascii) : bool :=
  let n := N_of_ascii c in (48 <=? n)%N && (n <=? 57)%N.

Fixpoint digits_value (s : string) (acc : N) : N :=
  match s with
  | EmptyString => acc
  | String c r => digits_value r (10 * acc + (N_of_ascii c - 48))%N
  end.

Fixpoint all_digits (s : string) : bool :=
  match s with
  | EmptyString => true
  | String c r => is_digit c && all_digits r
  end.

Definition array_index (k : string) : option N :=
  match k with
  | EmptyString => None
  | String c r =>
      if all_digits k
         && (negb (Ascii.eqb c "0") || String.eqb r "")
         && (Nat.leb (String.length k) 10)
         && (digits_value k 0 <=? 4294967294)%N
      then Some (digits_value k 0)
      else None
  end.

Definition is_array_index (k : string) : bool :=
  match array_index k with Some _ => true | None => false end.

Fixpoint insert_index {A : Type} (n : N) (x : A) (l : list (N * A))
  : list (N * A) :=
  match l with
  | [] => [(n, x)]
  | (m, y) :: r =>
      if (n <? m)%N then (n, x) :: l else (m, y) :: insert_index n x r
  end.

(** [Object.entries(o)]: own properties whose key is an array index
    first, in ascending numeric order, then the others in the order they
    were created. *)
Definition indexed_entries {A : Type} (props : list (string * A))
  : list (N * (string * A)) :=
  fold_right (fun kv acc =>
                match array_index (fst kv) with
                | Some n => insert_index n kv acc
                | None => acc
                end) [] props.

Definition entries {A : Type} (props : list (string * A)) : list (string * A) :=
  map snd (indexed_entries props)
  ++ filter (fun kv => negb (is_array_index (fst kv))) props.

(** [Array.prototype.sort(cmp)] is stable: [x] is moved after [y] only
    when [cmp(x, y) > 0]; a [NaN] from the comparator counts as [0].
    With a comparator that is no consistent order the result depends on
    the engine; this is the insertion order of a stable sort. *)
Definition positive (n : number) : bool := ltb zero n.

Fixpoint sort_insert {A : Type} (cmp : A -> A -> number) (x : A) (l : list A)
  : list A :=
  match l with
  | [] => [x]
  | y :: r => if positive (cmp x y) then y :: sort_insert cmp x r else x :: l
  end.

Definition sort {A : Type} (cmp : A -> A -> number) (l : list A) : list A :=
  fold_right (sort_insert cmp) [] l.

(** [a === b] for a string [a]. *)
Definition strict_eq_string (a : string) (b : value) : bool :=
  match b with
  | VStr s => String.eqb a s
  | _ => false
  end.

Section Coercions.

(** [StringToNumber] and [Number::toString] of the run time: the numeric
    value of a string ([NaN] when the string is no numeric literal), and
    the shortest decimal that reads back as the number. *)
Variable StringToNumber : string -> number.
Variable NumberToString : number -> string.

(** [String(v)].  An array prints its elements joined by commas, with
    [null] and [undefined] printed as the empty string; a built-in
    function prints its native source text.  An object literal prints as
    [[object Object]] through the [toString] it inherits; when it has a
    [toString] of its own, which JSON cannot make callable, only
    [valueOf] is left, and since that returns the object itself the
    conversion throws. *)
Fixpoint ToString (v : value) : result string :=
  match v with
  | VUndef => Ok "undefined"
  | VNull => Ok "null"
  | VBool true => Ok "true"
  | VBool false => Ok "false"
  | VNum n => Ok (NumberToString n)
  | VStr s => Ok s
  | VArr elems =>
      parts <- (fix each (l : list value) : result (list string) :=
                  match l with
                  | [] => Ok []
                  | e :: rest =>
                      s <- match e with
                           | VUndef | VNull => Ok ""
                           | _ => ToString e
                           end ;;
                      ss <- each rest ;;
                      Ok (s :: ss)
                  end) elems ;;
      Ok (join "," parts)
  | VObj props =>
      match lookup props "toString" with
      | Some _ => Throw TypeError
      | None => Ok "[object Object]"
      end
  | VFun name => Ok ("function " ++ name ++ "() { [native code] }")
  end.

(** [ToPrimitive]: objects, arrays and functions become their string. *)
Definition ToPrimitive (v : value) : result value :=
  match v with
  | VArr _ | VObj _ | VFun _ => s <- ToString v ;; Ok (VStr s)
  | _ => Ok v
  end.

(** [ToNumber] of a primitive value. *)
Definition ToNumeric (p : value) : number :=
  match p with
  | VUndef => nan
  | VNull => zero
  | VBool true => one
  | VBool false => zero
  | VNum n => n
  | VStr s => StringToNumber s
  | _ => nan
  end.

Definition ToNumber (v : value) : result number :=
  p <- ToPrimitive v ;; Ok (ToNumeric p).

(** [a * b]: the operands are converted from left to right. *)
Definition js_mul (a b : value) : result number :=
  x <- ToNumber a ;; y <- ToNumber b ;; Ok (mul x y).

(** [a + b]: concatenation as soon as one primitive is a string. *)
Definition js_add (a b : value) : result prim :=
  pa <- ToPrimitive a ;;
  pb <- ToPrimitive b ;;
  match pa, pb with
  | VStr s, _ => t <- ToString pb ;; Ok (PStr (s ++ t))
  | _, VStr t => s <- ToString pa ;; Ok (PStr (s ++ t))
  | _, _ => Ok (PNum (add (ToNumeric pa) (ToNumeric pb)))
  end.

(** [ToNumber] of a result of [+]. *)
Definition prim_number (p : prim) : number :=
  match p with
  | PNum n => n
  | PStr s => StringToNumber s
  end.

End Coercions.

End JS.

(* ================================================================== *)
(** * Time values of [Date] (ECMAScript, "Time Values and Time Range") *)

Module JSDate.

Definition msPerDay : Z := 86400000.

Definition Day (t : Z) : Z := t / msPerDay.
Definition TimeWithinDay (t : Z) : Z := t mod msPerDay.

Definition InLeapYear (y : Z) : bool :=
  if negb (y mod 4 =? 0) then false
  else if negb (y mod 100 =? 0) then true
  else (y mod 400 =? 0).

Definition DaysInYear (y : Z) : Z := if InLeapYear y then 366 else 365.

Definition DayFromYear (y : Z) : Z :=
  365 * (y - 1970) + (y - 1969) / 4 - (y - 1901) / 100 + (y - 1601) / 400.

(** The largest year [y] with [DayFromYear y <= day], searched upwards
    from a year that cannot be too large. *)
Fixpoint year_up (fuel : nat) (y day : Z) : Z :=
  match fuel with
  | O => y
  | S f => if DayFromYear (y + 1) <=? day then year_up f (y + 1) day else y
  end.

Definition YearFromDay (day : Z) : Z :=
  let lo := 1970 + day / (if 0 <=? day then 366 else 365) in
  year_up (Z.to_nat (Z.abs day / 100000 + 2)) lo day.

Definition YearFromTime (t : Z) : Z := YearFromDay (Day t).

Definition DayWithinYear (t : Z) : Z := Day t - DayFromYear (YearFromTime t).

(** Number of days of the year before month [m] (0 = January). *)
Definition daysBeforeMonth (leap : bool) (m : Z) : Z :=
  let l := if leap then 1 else 0 in
  match m with
  | 0 => 0
  | 1 => 31
  | 2 => 59 + l
  | 3 => 90 + l
  | 4 => 120 + l
  | 5 => 151 + l
  | 6 => 181 + l
  | 7 => 212 + l
  | 8 => 243 + l
  | 9 => 273 + l
  | 10 => 304 + l
  | _ => 334 + l
  end.

Definition MonthFromTime (t : Z) : Z :=
  let d := DayWithinYear t in
  let leap := InLeapYear (YearFromTime t) in
  if d <? daysBeforeMonth leap 1 then 0
  else if d <? daysBeforeMonth leap 2 then 1
  else if d <? daysBeforeMonth leap 3 then 2
  else if d <? daysBeforeMonth leap 4 then 3
  else if d <? daysBeforeMonth leap 5 then 4
  else if d <? daysBeforeMonth leap 6 then 5
  else if d <? daysBeforeMonth leap 7 then 6
  else if d <? daysBeforeMonth leap 8 then 7
  else if d <? daysBeforeMonth leap 9 then 8
  else if d <? daysBeforeMonth leap 10 then 9
  else if d <? daysBeforeMonth leap 11 then 10
  else 11.

Definition DateFromTime (t : Z) : Z :=
  DayWithinYear t
  - daysBeforeMonth (InLeapYear (YearFromTime t)) (MonthFromTime t) + 1.

(** [MakeDay(year, month, date)]: months beyond December carry into the
    following years, days beyond the end of the month into the
    following months. *)
Definition MakeDay (year month date : Z) : Z :=
  let ym := year + month / 12 in
  let mn := month mod 12 in
  DayFromYear ym + daysBeforeMonth (InLeapYear ym) mn + date - 1.

Definition MakeDate (day time : Z) : Z := day * msPerDay + time.

(** A [Date] holds a time value, or is an Invalid Date. *)
Definition Date : Type := option Z.

Definition TimeClip (t : Z) : Date :=
  if Z.abs t <=? 8640000000000000 then Some t else None.

(** A date as the query string [YYYY-MM-DD] carries it ([month] from 1
    to 12). *)
Record DateOnly : Type := mkDateOnly { year : Z; month : Z; day : Z }.

Definition DaysInMonth (y m : Z) : Z :=
  if m =? 11 then 31
  else daysBeforeMonth (InLeapYear y) (m + 1) - daysBeforeMonth (InLeapYear y) m.

(** A date of the calendar. *)
Definition valid_date (d : DateOnly) : bool :=
  (0 <=? year d) && (year d <=? 9999)
  && (1 <=? month d) && (month d <=? 12)
  && (1 <=? day d) && (day d <=? DaysInMonth (year d) (month d - 1)).

(** What the parser of the run time accepts: any day from 1 to 31,
    whatever the month. *)
Definition parsable (d : DateOnly) : bool :=
  (0 <=? year d) && (year d <=? 9999)
  && (1 <=? month d) && (month d <=? 12)
  && (1 <=? day d) && (day d <=? 31).

(** [new Date("YYYY-MM-DD")]: a date-only form is read as midnight UTC;
    a day beyond the end of its month carries into the next one. *)
Definition parseDate (d : DateOnly) : Date :=
  if parsable d
  then TimeClip (MakeDate (MakeDay (year d) (month d - 1) (day d)) 0)
  else None.

Section LocalTime.

(** [LocalTZA(t, isUTC)]: the offset of the server's time zone from UTC,
    in milliseconds, at the instant [t] when [isUTC] holds, and at the
    local time [t] otherwise.  It changes when daylight saving time
    starts or ends. *)
Variable LocalTZA : Z -> bool -> Z.

Definition LocalTime (t : Z) : Z := t + LocalTZA t true.
Definition UTC (t : Z) : Z := t - LocalTZA t false.

(** [d.getDate()] and [d.getMonth()]; [NaN] on an Invalid Date. *)
Definition getDate (d : Date) : option Z :=
  option_map (fun t => DateFromTime (LocalTime t)) d.

Definition getMonth (d : Date) : option Z :=
  option_map (fun t => MonthFromTime (LocalTime t)) d.

(** [d.setDate(dt)] *)
Definition setDate (d : Date) (dt : option Z) : Date :=
  match d, dt with
  | Some t, Some n =>
      let t' := LocalTime t in
      TimeClip (UTC (MakeDate (MakeDay (YearFromTime t') (MonthFromTime t') n)
                              (TimeWithinDay t')))
  | _, _ => None
  end.

(** [d.setMonth(m)] *)
Definition setMonth (d : Date) (m : option Z) : Date :=
  match d, m with
  | Some t, Some n =>
      let t' := LocalTime t in
      TimeClip (UTC (MakeDate (MakeDay (YearFromTime t') n (DateFromTime t'))
                              (TimeWithinDay t')))
  | _, _ => None
  end.

End LocalTime.

End JSDate.

(* ================================================================== *)
(** * The document store *)

Import JS JSDate.

Definition ObjectId : Type := Z.

Definition field (props : list (string * value)) (k : string) : value :=
  match lookup props k with
  | Some v => v
  | None => VUndef
  end.

Section Casts.

Variable NumberToString : number -> string.

(** The store's cast of a path declared [String]: strings are kept,
    numbers and booleans are printed, [null] and [undefined] leave the
    path empty, arrays are refused, and so are plain objects unless they
    carry a non-empty string [_id], which then stands for them. *)
Definition castString (v : value) : result (option string) :=
  match v with
  | VUndef | VNull => Ok None
  | VStr s => Ok (Some s)
  | VNum n => Ok (Some (NumberToString n))
  | VBool true => Ok (Some "true")
  | VBool false => Ok (Some "false")
  | VObj props =>
      match lookup props "_id" with
      | Some (VStr s) =>
          if String.eqb s "" then Throw StoreError else Ok (Some s)
      | _ => Throw StoreError
      end
  | VArr _ | VFun _ => Throw StoreError
  end.

End Casts.

(** ** [const Order = mongoose.model("Order", orderSchema)]

    The documents of the collection are those this server has written:
    each has been through the casts of the schema. *)
Module Order.

Record t : Type := mk {
  _id : ObjectId;
  orderType : option string;
  customerName : option string;
  registrationNumber : option string;
  mobile : option string;
  tableNumber : option string;
  address : option string;
  items : list value;
  total : number;
  status : option string;
  createdAt : Z;
  updatedAt : Z
}.

(** The identifier the store makes up for a document that brings
    none: one that no stored document has. *)
Definition freshId (docs : list t) : ObjectId :=
  1 + fold_right (fun d m => Z.max (_id d) m) 0 docs.

(** [total: Number].  The only caller passes the number it has just
    computed; the store refuses [NaN]. *)
Definition castTotal (v : value) : result number :=
  match v with
  | VNum n => if is_nan n then Throw StoreError else Ok n
  | _ => Throw StoreError
  end.

(** [items: Array]: an array of anything; a missing path is the empty
    array, a lone value is wrapped. *)
Definition castItems (v : value) : list value :=
  match v with
  | VArr l => l
  | VUndef | VNull => []
  | _ => [v]
  end.

(** What an update does to a document: it sets the status to a string,
    or to [null], or leaves it; with [timestamps: true] it always
    writes [updatedAt]. *)
Definition set_status (s : string) (now : Z) (o : t) : t :=
  mk (_id o) (orderType o) (customerName o) (registrationNumber o)
     (mobile o) (tableNumber o) (address o) (items o) (total o)
     (Some s) (createdAt o) now.

Definition unset_status (now : Z) (o : t) : t :=
  mk (_id o) (orderType o) (customerName o) (registrationNumber o)
     (mobile o) (tableNumber o) (address o) (items o) (total o)
     None (createdAt o) now.

Definition touch (now : Z) (o : t) : t :=
  mk (_id o) (orderType o) (customerName o) (registrationNumber o)
     (mobile o) (tableNumber o) (address o) (items o) (total o)
     (status o) (createdAt o) now.

Definition apply_update (u : option (option string)) (now : Z) (o : t) : t :=
  match u with
  | Some (Some s) => set_status s now o
  | Some None => unset_status now o
  | None => touch now o
  end.

(** [Order.find({ createdAt: { $gte: start, $lt: end } })] *)
Definition in_window (start stop : Z) (o : t) : bool :=
  (start <=? createdAt o) && (createdAt o <? stop).

(** [status: { $ne: "deleted" }] *)
Definition not_deleted (o : t) : bool :=
  match status o with
  | Some s => negb (String.eqb s "deleted")
  | None => true
  end.

(** [Order.findByIdAndUpdate(id, update, { new: true })] for an
    identifier and an update that have been cast: the document with that
    identifier is updated and returned; [null] and an untouched
    collection when there is none. *)
Fixpoint findByIdAndUpdate (id : ObjectId) (update : t -> t)
         (docs : list t) : option t * list t :=
  match docs with
  | [] => (None, [])
  | o :: rest =>
      if _id o =? id then (Some (update o), update o :: rest)
      else let (r, rest') := findByIdAndUpdate id update rest in (r, o :: rest')
  end.

Section Schema.

Variable NumberToString : number -> string.

(** The store's casts of an identifier ([None]: no identifier can be
    read from the value) and of a date ([Ok None]: the value stands for
    no date). *)
Variable castObjectId : value -> option ObjectId.
Variable castDate : value -> result (option Z).

(** [updatedAt] of a new document: the [updatedAt] of the object is
    refused, or decides how the path is filled from [createdAt] and
    from the clock. *)
Variable initialUpdatedAt : value -> result (Z -> Z -> Z).

(** With [omitUndefined], an [undefined] in an update is left out;
    without, it is written as [null]. *)
Variable omitUndefined : bool.

(** [status: { type: String, default: "new" }] *)
Definition castStatus (v : value) : result (option string) :=
  match v with
  | VUndef => Ok (Some "new")
  | _ => castString NumberToString v
  end.

(** [_id]: the one the object brings, which must be readable and must
    not be that of a stored document; a fresh one when it brings none. *)
Definition assignId (v : value) (docs : list t) : result ObjectId :=
  match v with
  | VUndef => Ok (freshId docs)
  | _ =>
      match castObjectId v with
      | None => Throw StoreError
      | Some id =>
          if existsb (fun d => _id d =? id) docs then Throw StoreError
          else Ok id
      end
  end.

(** [createdAt] ([timestamps: true]): the one the object brings, the
    clock when it brings none. *)
Definition assignCreatedAt (v : value) (now : Z) : result Z :=
  match v with
  | VUndef => Ok now
  | _ => c <- castDate v ;; Ok (match c with Some at_ => at_ | None => now end)
  end.

(** [Order.create(obj)]: the declared paths of [obj] are cast, with
    [_id] and the two timestamps among them, and the document is
    inserted.  Paths outside the schema are dropped. *)
Definition create (obj : list (string * value)) (now : Z) (docs : list t)
  : result t :=
  id <- assignId (field obj "_id") docs ;;
  ty <- castString NumberToString (field obj "orderType") ;;
  cn <- castString NumberToString (field obj "customerName") ;;
  rn <- castString NumberToString (field obj "registrationNumber") ;;
  mb <- castString NumberToString (field obj "mobile") ;;
  tn <- castString NumberToString (field obj "tableNumber") ;;
  ad <- castString NumberToString (field obj "address") ;;
  tt <- castTotal (field obj "total") ;;
  st <- castStatus (field obj "status") ;;
  ca <- assignCreatedAt (field obj "createdAt") now ;;
  ua <- initialUpdatedAt (field obj "updatedAt") ;;
  Ok (mk id ty cn rn mb tn ad (castItems (field obj "items")) tt st ca
         (ua ca now)).

(** The update [{ status }], cast. *)
Definition castStatusUpdate (v : value) : result (option (option string)) :=
  match v with
  | VUndef => Ok (if omitUndefined then None else Some None)
  | _ => s <- castString NumberToString v ;; Ok (Some s)
  end.

End Schema.

End Order.

(** ** [const Manager = mongoose.model("Manager", managerSchema)] *)
Module Manager.

Record t : Type := mk {
  _id : ObjectId;
  username : option string;
  password : option string
}.

(** A path holds the string [s]. *)
Definition holds (s : string) (path : option string) : bool :=
  match path with
  | Some x => String.eqb x s
  | None => false
  end.

Definition matches (u p : string) (m : t) : bool :=
  holds u (username m) && holds p (password m).

(** [manager.save()]: the stored document with the identifier of
    [m] takes the paths of [m]. *)
Fixpoint save (m : t) (docs : list t) : list t :=
  match docs with
  | [] => []
  | d :: rest => if _id d =? _id m then m :: rest else d :: save m rest
  end.

Section Queries.

(** The store's reading of a query value that is no string (a number
    to compare with, an operator object such as [{ $ne: null }], ...):
    the condition on the path, or a refusal. *)
Variable storeQuery : value -> result (option string -> bool).

Definition condition (v : value) : result (option string -> bool) :=
  match v with
  | VStr s => Ok (holds s)
  | _ => storeQuery v
  end.

(** [Manager.findOne({ username, password })]: the first document
    that meets both conditions. *)
Definition findOne (u p : value) (docs : list t) : result (option t) :=
  cu <- condition u ;;
  cp <- condition p ;;
  Ok (find (fun m => cu (username m) && cp (password m)) docs).

End Queries.

End Manager.

(* ================================================================== *)
(** * The server *)

(** Events sent with [io.emit]. *)
Inductive event : Type :=
| newOrder (o : Order.t)
| orderUpdated (o : option Order.t).

(** What lives outside a handler: both collections and the events sent
    so far. *)
Record World : Type := mkWorld {
  orders : list Order.t;
  managers : list Manager.t;
  emitted : list event
}.

(** JSON bodies of the responses. *)
Inductive json : Type :=
| JSuccess (success : bool)
| JSuccessOrder (order : Order.t)
| JInvalidCredentials
| JOrder (order : option Order.t)
| JOrders (l : list Order.t)
| JSales (total : number) (count : nat)
| JTopDish (top : option (string * prim)).

Record response : Type := mkResponse { code : Z; body : json }.

Section Server.

(** [crypto.createHmac("sha256", key).update(msg).digest("hex")] *)
Variable hmac_sha256_hex : string -> string -> string.

(** [process.env.RAZORPAY_KEY_SECRET] *)
Variable RAZORPAY_KEY_SECRET : option string.

Variable StringToNumber : string -> number.
Variable NumberToString : number -> string.

(** The store: its casts and its reading of queries. *)
Variable castObjectId : value -> option ObjectId.
Variable castDate : value -> result (option Z).
Variable initialUpdatedAt : value -> result (Z -> Z -> Z).
Variable omitUndefined : bool.
Variable storeQuery : value -> result (option string -> bool).

(** The server's time zone. *)
Variable LocalTZA : Z -> bool -> Z.

(** [createHmac(..., key).update(msg)] throws when it is given no key,
    and when the message is a number. *)
Definition createHmac (key : option string) (msg : prim) : result string :=
  match key, msg with
  | Some k, PStr m => Ok (hmac_sha256_hex k m)
  | _, _ => Throw TypeError
  end.

(** ** [POST /api/payments/verify-and-create-order] *)

(** [(sum, i) => sum + i.price * i.qty] *)
Definition add_item (sum : number) (i : value) : result number :=
  price <- getProp i "price" ;;
  qty <- getProp i "qty" ;;
  line <- js_mul StringToNumber NumberToString price qty ;;
  Ok (add sum line).

(** [l.reduce(f, sum)] *)
Fixpoint reduce (l : list value) (sum : number) : result number :=
  match l with
  | [] => Ok sum
  | i :: rest => s <- add_item sum i ;; reduce rest s
  end.

(** [orderPayload.items.reduce(..., 0)]: only an array has [reduce]. *)
Definition items_total (orderPayload : value) : result number :=
  items <- getProp orderPayload "items" ;;
  match items with
  | VArr l => reduce l zero
  | _ => Throw TypeError
  end.

(** The own properties copied by [{...orderPayload}]; the payload is an
    object literal whenever this point is reached. *)
Definition own_props (v : value) : list (string * value) :=
  match v with
  | VObj props => props
  | _ => []
  end.

(** The handler: [attempt] is the [try] block, and the [catch] answers
    every exception with status 500.  [req] is [req.body], the object
    the JSON parser has left there, and [now] the clock of the store. *)
Definition verifyAndCreateOrder (req : list (string * value)) (now : Z)
           (w : World) : response * World :=
  let razorpay_order_id := field req "razorpay_order_id" in
  let razorpay_payment_id := field req "razorpay_payment_id" in
  let razorpay_signature := field req "razorpay_signature" in
  let orderPayload := field req "orderPayload" in
  let attempt : result (response * World) :=
    head <- js_add StringToNumber NumberToString razorpay_order_id (VStr "|") ;;
    body <- js_add StringToNumber NumberToString (of_prim head)
                   razorpay_payment_id ;;
    expected <- createHmac RAZORPAY_KEY_SECRET body ;;
    if negb (strict_eq_string expected razorpay_signature)
    then Ok (mkResponse 200 (JSuccess false), w)
    else
      total <- items_total orderPayload ;;
      created <- Order.create NumberToString castObjectId castDate
                              initialUpdatedAt
                              (set (own_props orderPayload) "total" (VNum total))
                              now (orders w) ;;
      Ok (mkResponse 200 (JSuccessOrder created),
          mkWorld (orders w ++ [created]) (managers w)
                  (emitted w ++ [newOrder created]))
  in
  match attempt with
  | Ok r => r
  | Throw _ => (mkResponse 500 (JSuccess false), w)
  end.

(** ** [PATCH /api/orders/:id/status] *)

(** [id] is [req.params.id], a piece of the path, and [status] is
    [req.body.status].  The handler has no [try]: when the store refuses
    the identifier or the status, the request is left without an answer
    and nothing is written or announced. *)
Definition updateStatus (id : string) (status : value) (now : Z)
           (w : World) : result response * World :=
  match castObjectId (VStr id),
        Order.castStatusUpdate NumberToString omitUndefined status with
  | Some oid, Ok update =>
      let (order, docs) :=
        Order.findByIdAndUpdate oid (Order.apply_update update now) (orders w) in
      (Ok (mkResponse 200 (JOrder order)),
       mkWorld docs (managers w) (emitted w ++ [orderUpdated order]))
  | None, _ => (Throw StoreError, w)
  | _, Throw e => (Throw e, w)
  end.

(** ** [GET /api/dashboard/sales] *)

(** [period === p], for the query parameter [period]. *)
Definition is_period (period : option string) (p : string) : bool :=
  match period with
  | Some s => String.eqb s p
  | None => false
  end.

(** [start] and [end] as the handler computes them. *)
Definition salesWindow (period : option string) (date : DateOnly)
  : Date * Date :=
  let start := parseDate date in
  let stop := parseDate date in
  let plus (n : Z) (x : option Z) := option_map (fun v => v + n) x in
  let stop :=
    if is_period period "week"
    then setDate LocalTZA stop (plus 7 (getDate LocalTZA start))
    else if is_period period "month"
    then setMonth LocalTZA stop (plus 1 (getMonth LocalTZA start))
    else setDate LocalTZA stop (plus 1 (getDate LocalTZA start)) in
  (start, stop).

(** [Order.find] refuses a bound that is an Invalid Date. *)
Definition find_between (bounds : Date * Date) (keep : Order.t -> bool)
           (docs : list Order.t) : result (list Order.t) :=
  match bounds with
  | (Some start, Some stop) =>
      Ok (filter (fun o => Order.in_window start stop o && keep o) docs)
  | _ => Throw StoreError
  end.

(** The handler has no [try]: an exception leaves the request without
    an answer. *)
Definition salesSummary (period : option string) (date : DateOnly)
           (w : World) : result response :=
  found <- find_between (salesWindow period date) Order.not_deleted (orders w) ;;
  let total := fold_left (fun s o => add s (Order.total o)) found zero in
  Ok (mkResponse 200 (JSales total (List.length found))).

(** ** [GET /api/dashboard/topdish] *)

(** [start] and [end]: the day of [date]. *)
Definition dayWindow (date : DateOnly) : Date * Date :=
  let start := parseDate date in
  let stop := parseDate date in
  (start,
   setDate LocalTZA stop (option_map (fun v => v + 1) (getDate LocalTZA stop))).

(** [dishCount[i.name] = (dishCount[i.name] || 0) + i.qty]: the key is
    converted first, then the right-hand side is evaluated. *)
Definition count_item (dishCount : list (string * prim)) (i : value)
  : result (list (string * prim)) :=
  name <- getProp i "name" ;;
  key <- ToString NumberToString name ;;
  qty <- getProp i "qty" ;;
  n <- js_add StringToNumber NumberToString
              (js_or (obj_get dishCount key) (VNum zero)) qty ;;
  Ok (obj_set dishCount key n).

Fixpoint count_items (dishCount : list (string * prim)) (l : list value)
  : result (list (string * prim)) :=
  match l with
  | [] => Ok dishCount
  | i :: rest => d <- count_item dishCount i ;; count_items d rest
  end.

Fixpoint count_orders (dishCount : list (string * prim))
         (l : list Order.t) : result (list (string * prim)) :=
  match l with
  | [] => Ok dishCount
  | o :: rest =>
      d <- count_items dishCount (Order.items o) ;; count_orders d rest
  end.

(** [(a, b) => b[1] - a[1]], on entries of [dishCount]: both counts are
    results of [+], which [-] converts to numbers. *)
Definition by_count_desc (a b : string * prim) : number :=
  sub (prim_number StringToNumber (snd b)) (prim_number StringToNumber (snd a)).

(** The handler; it has no [try] either. *)
Definition topDish (date : DateOnly) (w : World) : result response :=
  found <- find_between (dayWindow date) (fun _ => true) (orders w) ;;
  dishCount <- count_orders [] found ;;
  match sort by_count_desc (entries dishCount) with
  | [] => Ok (mkResponse 200 (JTopDish None))
  | top :: _ => Ok (mkResponse 200 (JTopDish (Some (fst top, snd top))))
  end.

(** ** [POST /api/manager/login] and [/change-credentials] *)

(** Neither handler has a [try].  The fields of the body go to the
    store as they come. *)
Definition login (username password : value) (w : World) : result response :=
  manager <- Manager.findOne storeQuery username password (managers w) ;;
  match manager with
  | None => Ok (mkResponse 401 JInvalidCredentials)
  | Some _ => Ok (mkResponse 200 (JSuccess true))
  end.

(** [manager.save()] casts the two paths that were assigned, and
    rejects when one of them cannot be cast. *)
Definition changeCredentials (currentUser currentPassword newUser
                              newPassword : value) (w : World)
  : result response * World :=
  match Manager.findOne storeQuery currentUser currentPassword (managers w) with
  | Throw e => (Throw e, w)
  | Ok None => (Ok (mkResponse 401 (JSuccess false)), w)
  | Ok (Some manager) =>
      match castString NumberToString newUser,
            castString NumberToString newPassword with
      | Ok u, Ok p =>
          let manager := Manager.mk (Manager._id manager) u p in
          (Ok (mkResponse 200 (JSuccess true)),
           mkWorld (orders w) (Manager.save manager (managers w)) (emitted w))
      | Throw e, _ => (Throw e, w)
      | _, Throw e => (Throw e, w)
      end
  end.

(** ** [GET /api/orders] *)

(** [.sort({ createdAt: -1 })]: newest first.  The store leaves open how
    documents created at the same instant follow each other; here they
    keep the order of the collection. *)
Fixpoint insert_newest (o : Order.t) (l : list Order.t) : list Order.t :=
  match l with
  | [] => [o]
  | x :: rest =>
      if Order.createdAt o <? Order.createdAt x
      then x :: insert_newest o rest
      else o :: l
  end.

Definition newest_first (l : list Order.t) : list Order.t :=
  fold_right insert_newest [] l.

(** The handler; its window is computed as in [topdish], and it has no
    [try]. *)
Definition listOrders (date : DateOnly) (w : World) : result response :=
  found <- find_between (dayWindow date) (fun _ => true) (orders w) ;;
  Ok (mkResponse 200 (JOrders (newest_first found))).

End Server.

(* ================================================================== *)
(** * The specification's vocabulary *)

Section Specification.

Variable hmac_sha256_hex : string -> string -> string.
Variable StringToNumber : string -> number.
Variable NumberToString : number -> string.
Variable LocalTZA : Z -> bool -> Z.

(** The text the gateway signs: [gatewayOrderId + "|" + gatewayPaymentId],
    when both identifiers can be printed. *)
Definition signed_text (req : list (string * value)) : result string :=
  a <- ToString NumberToString (field req "razorpay_order_id") ;;
  b <- ToString NumberToString (field req "razorpay_payment_id") ;;
  Ok (a ++ "|" ++ b).

(** The signature the gateway would have issued: the HMAC-SHA256 of that
    text under the shared secret. *)
Definition expected_signature (key : string) (req : list (string * value))
  : result string :=
  text <- signed_text req ;; Ok (hmac_sha256_hex key text).

Definition signature_valid (key : string) (req : list (string * value)) : bool :=
  match expected_signature key req with
  | Ok expected => strict_eq_string expected (field req "razorpay_signature")
  | Throw _ => false
  end.

(** [price * qty] of one line item, and their sum over the items, added
    from left to right starting from 0. *)
Definition prop (i : value) (k : string) : value :=
  match i with
  | VObj props => field props k
  | _ => VUndef
  end.

Definition line_total (i : value) : number :=
  match js_mul StringToNumber NumberToString (prop i "price") (prop i "qty") with
  | Ok x => x
  | Throw _ => nan
  end.

Definition sum_price_qty (items : list value) : number :=
  fold_left (fun acc i => add acc (line_total i)) items zero.

(** A line item as the data model describes it: a name (string), a
    price (number) and a quantity (number). *)
Definition well_formed_item (i : value) : bool :=
  match prop i "name", prop i "price", prop i "qty" with
  | VStr _, VNum _, VNum _ => true
  | _, _, _ => false
  end.

(** [orderPayload.items] is missing: there is no payload, or it has no
    [items]. *)
Definition items_missing (orderPayload : value) : bool :=
  match prop orderPayload "items" with
  | VUndef | VNull => true
  | _ => false
  end.

(** [orderPayload.items] is there but is no sequence of line items. *)
Definition items_malformed (orderPayload : value) : bool :=
  match prop orderPayload "items" with
  | VUndef | VNull => false
  | VArr l => negb (forallb well_formed_item l)
  | _ => true
  end.

(** The items cannot even be walked: no array, or an array with a
    [null] in it. *)
Definition nullish (v : value) : bool :=
  match v with
  | VUndef | VNull => true
  | _ => false
  end.

Definition items_unreadable (orderPayload : value) : bool :=
  match prop orderPayload "items" with
  | VArr l => existsb nullish l
  | _ => true
  end.

(** The same day of the month, one calendar month later, and the first
    day of that following month. *)
Definition next_month (d : DateOnly) : DateOnly :=
  if month d =? 12 then mkDateOnly (year d + 1) 1 (day d)
  else mkDateOnly (year d) (month d + 1) (day d).

Definition first_of_next_month (d : DateOnly) : DateOnly :=
  mkDateOnly (year (next_month d)) (month (next_month d)) 1.

(** The clock of the server is not changed between [start] and [stop]:
    the offset from UTC in force at the instant [start] is also the one
    in force when the local clock shows what it would show at [stop]
    under that offset.  This fails across the start or the end of
    daylight saving time. *)
Definition steady_clock (start stop : Z) : Prop :=
  LocalTZA (stop + LocalTZA start true) false = LocalTZA start true.

(** An order counts towards the sales of the window [[start, stop)]
    when it was created inside it and its status is not ["deleted"]. *)
Definition is_deleted (o : Order.t) : bool :=
  match Order.status o with
  | Some s => String.eqb s "deleted"
  | None => false
  end.

Definition counted (start stop : Z) (o : Order.t) : bool :=
  (start <=? Order.createdAt o) && (Order.createdAt o <? stop)
  && negb (is_deleted o).

Definition sales_total (start stop : Z) (docs : list Order.t) : number :=
  fold_left (fun acc o => if counted start stop o
                          then add acc (Order.total o) else acc)
            docs zero.

Definition sales_count (start stop : Z) (docs : list Order.t) : nat :=
  fold_left (fun acc o => if counted start stop o then S acc else acc) docs O.

(** A dish name that behaves as an ordinary dictionary key: it is not
    an array index and [Object.prototype] has nothing under it. *)
Definition plain_key (k : string) : bool :=
  negb (is_array_index k)
  && match inherited k with VUndef => true | _ => false end.

(** A line item whose name is such a string and whose quantity is a
    number; [sold_line] reads the two. *)
Definition plain_item (i : value) : bool :=
  match prop i "name", prop i "qty" with
  | VStr n, VNum _ => plain_key n
  | _, _ => false
  end.

Definition sold_line (i : value) : string * number :=
  match prop i "name", prop i "qty" with
  | VStr n, VNum q => (n, q)
  | _, _ => ("", zero)
  end.

(** The count of a dish after one more sale: the quantity is added to
    the count so far.  A count so far of [0] or [NaN] is no count, and
    the quantity is then added to [0]. *)
Definition so_far (count : number) : number :=
  if negb (is_zero count || is_nan count) then count else zero.

Definition one_more (count qty : number) : number := add (so_far count) qty.

(** Cumulative quantity sold under a name: the quantities of its lines,
    added in the order of the sales. *)
Definition cumulative_from (count : number) (sold : list (string * number))
           (name : string) : number :=
  fold_left (fun acc l => if String.eqb (fst l) name
                          then one_more acc (snd l) else acc)
            sold count.

Definition cumulative (sold : list (string * number)) (name : string) : number :=
  cumulative_from zero sold name.

(** The distinct names, in the order in which they are first met. *)
Fixpoint first_seen (names : list string) : list string :=
  match names with
  | [] => []
  | n :: rest => n :: filter (fun m => negb (String.eqb m n)) (first_seen rest)
  end.

Definition mem (n : string) (names : list string) : bool :=
  existsb (String.eqb n) names.

(** The dictionary [dishCount] as pairs of a name and a number. *)
Definition encode (counts : list (string * number)) : list (string * prim) :=
  map (fun c => (fst c, PNum (snd c))) counts.

Fixpoint bump (counts : list (string * number)) (name : string) (qty : number)
  : list (string * number) :=
  match counts with
  | [] => [(name, one_more zero qty)]
  | (m, c) :: rest =>
      if String.eqb m name then (m, one_more c qty) :: rest
      else (m, c) :: bump rest name qty
  end.

Definition tally (counts sold : list (string * number))
  : list (string * number) :=
  fold_left (fun acc l => bump acc (fst l) (snd l)) sold counts.

(** [a] exceeds [b], as the comparator of the handler tests it:
    [a - b] is positive. *)
Definition exceeds (a b : number) : bool := positive (sub a b).

(** The first entry whose count no later entry exceeds and which
    exceeds every earlier one. *)
Fixpoint first_max (counts : list (string * number))
  : option (string * number) :=
  match counts with
  | [] => None
  | x :: rest =>
      match first_max rest with
      | Some y => if exceeds (snd y) (snd x) then Some y else Some x
      | None => Some x
      end
  end.

(** The counts are numbers that can be ordered: on them the test of the
    comparator is [<], and [<] is a strict weak order.  This fails only
    with [NaN] among the counts. *)
Definition orderable (counts : list number) : bool :=
  forallb (fun a =>
    forallb (fun b =>
      Bool.eqb (exceeds a b) (ltb b a)
      && forallb (fun c =>
           implb (ltb a b && ltb b c) (ltb a c)
           && implb (negb (ltb a b) && negb (ltb b c)) (negb (ltb a c)))
         counts)
    counts)
  counts.

(** The comparison of the handler orders the counts consistently. *)
Definition consistent (counts : list number) : Prop :=
  forall a b c, In a counts -> In b counts -> In c counts ->
    (exceeds a b = true -> exceeds b c = true -> exceeds a c = true)
    /\ (exceeds a b = false -> exceeds b c = false -> exceeds a c = false).

(** Exactly the given credentials. *)
Definition has_credentials (u p : string) (m : Manager.t) : Prop :=
  Manager.username m = Some u /\ Manager.password m = Some p.

End Specification.

(** ** Sample data *)

(** A stand-in for the HMAC in the examples. *)
Definition sample_hmac (key msg : string) : string := key ++ "/" ++ msg.

(** A stand-in for [StringToNumber] where no string is read as a
    number; the examples convert no string to a number. *)
Definition no_numerals (s : string) : number := nan.

(** A stand-in for [Number::toString]: it prints the integers up to
    2^53 and the values that are no finite number, which is all the
    examples print. *)
Fixpoint digits_fuel (fuel : nat) (n : N) (acc : string) : string :=
  match fuel with
  | O => acc
  | S f =>
      let d := ascii_of_N (48 + N.modulo n 10) in
      let q := N.div n 10 in
      match q with
      | N0 => String d acc
      | _ => digits_fuel f q (String d acc)
      end
  end.

Definition N_to_string (n : N) : string :=
  digits_fuel (S (N.to_nat (N.log2 n))) n "".

Definition integer_of (n : number) : option Z :=
  match Prim2SF n with
  | S754_zero _ => Some 0
  | S754_finite s m e =>
      let v := if s then Z.neg m else Z.pos m in
      if 0 <=? e then Some (v * 2 ^ e)
      else if Z.pos m mod 2 ^ (- e) =? 0 then Some (v / 2 ^ (- e))
      else None
  | _ => None
  end.

Definition decimal (n : number) : string :=
  if is_nan n then "NaN"
  else if is_infinity n then (if get_sign n then "-Infinity" else "Infinity")
  else match integer_of n with
       | Some (Zpos p) =>
           if Z.pos p <=? 9007199254740992 then N_to_string (Npos p) else "#"
       | Some (Zneg p) =>
           if Z.pos p <=? 9007199254740992
           then "-" ++ N_to_string (Npos p) else "#"
       | Some Z0 => "0"
       | None => "#"
       end.

(** A stand-in for the cast of identifiers: the strings of 24
    hexadecimal digits. *)
Definition hex_digit (c : ascii) : option Z :=
  let n := Z.of_N (N_of_ascii c) in
  if (48 <=? n) && (n <=? 57) then Some (n - 48)
  else if (97 <=? n) && (n <=? 102) then Some (n - 87)
  else if (65 <=? n) && (n <=? 70) then Some (n - 55)
  else None.

Fixpoint hex_value (s : string) (acc : Z) : option Z :=
  match s with
  | EmptyString => Some acc
  | String c r =>
      match hex_digit c with
      | Some d => hex_value r (16 * acc + d)
      | None => None
      end
  end.

Definition hex24 (v : value) : option ObjectId :=
  match v with
  | VStr s => if Nat.eqb (String.length s) 24 then hex_value s 0 else None
  | _ => None
  end.

(** Stand-ins for the cast of dates (only [null] is read, as no date)
    and for the first [updatedAt] (the clock). *)
Definition no_dates (v : value) : result (option Z) :=
  match v with
  | VNull => Ok None
  | _ => Throw StoreError
  end.

Definition updated_now (v : value) : result (Z -> Z -> Z) :=
  Ok (fun created now => now).

(** A stand-in for the store's reading of queries: the operator object
    [{ $ne: null }] asks for a path that holds a value. *)
Definition ne_null (v : value) : result (option string -> bool) :=
  match v with
  | VObj [("$ne", VNull)] =>
      Ok (fun path => match path with Some _ => true | None => false end)
  | _ => Throw StoreError
  end.

(** Time zones: Indian Standard Time, UTC+05:30 all year; Eastern
    Standard Time, UTC-05:00 all year; and New York in 2024, on UTC-04:00
    from 2024-03-10 07:00 UTC to 2024-11-03 06:00 UTC, that is from
    03:00 to 02:00 on the local clock. *)
Definition IST (t : Z) (isUTC : bool) : Z := 19800000.
Definition EST (t : Z) (isUTC : bool) : Z := -18000000.

Definition New_York (t : Z) (isUTC : bool) : Z :=
  if isUTC
  then if (1710054000000 <=? t) && (t <? 1730613600000)
       then -14400000 else -18000000
  else if (1710039600000 <=? t) && (t <? 1730599200000)
       then -14400000 else -18000000.

Definition line (name : string) (price qty : number) : value :=
  VObj [("name", VStr name); ("price", VNum price); ("qty", VNum qty)].

Definition sample_request (payload : list (string * value))
  : list (string * value) :=
  [("razorpay_order_id", VStr "order_9A"); ("razorpay_payment_id", VStr "pay_29Q");
   ("razorpay_signature", VStr "s3cret/order_9A|pay_29Q");
   ("orderPayload", VObj payload)].

(** The same signed request without any [orderPayload]. *)
Definition bare_request : list (string * value) :=
  [("razorpay_order_id", VStr "order_9A"); ("razorpay_payment_id", VStr "pay_29Q");
   ("razorpay_signature", VStr "s3cret/order_9A|pay_29Q")].

(** A request whose order id is an object with a [toString] of its
    own. *)
Definition unprintable_request : list (string * value) :=
  [("razorpay_order_id", VObj [("toString", VNum 1%float)]);
   ("razorpay_payment_id", VStr "pay_29Q");
   ("razorpay_signature", VStr "anything")].

Definition sample_items : list value :=
  [line "Margherita" 250%float 2%float; line "Pepperoni" 300%float 1%float].

(** A payload in which the client claims a total of 1. *)
Definition sample_payload : list (string * value) :=
  [("customerName", VStr "Asha"); ("total", VNum 1%float);
   ("items", VArr sample_items)].

(** The same payload with an identifier chosen by the client. *)
Definition chosen_id : string := "65a4c1e2f0a1b2c3d4e5f601".

Definition payload_with_id : list (string * value) :=
  ("_id", VStr chosen_id) :: sample_payload.

(** A payload whose only item has [null] for a price. *)
Definition unpriced_items : list value :=
  [VObj [("name", VStr "Margherita"); ("price", VNull); ("qty", VNum 2%float)]].

Definition unpriced_payload : list (string * value) :=
  [("customerName", VStr "Asha"); ("items", VArr unpriced_items)].

Definition sample_order (id : ObjectId) (at_ : Z) (its : list value)
           (tot : number) (st : string) : Order.t :=
  Order.mk id None (Some "Asha") None None None None its tot
           (Some st) at_ at_.

(** 2024-01-15, 12:00 in India. *)
Definition noon_jan_15 : Z := 1705300200000.

Definition jan_15 : DateOnly := mkDateOnly 2024 1 15.
Definition jan_31 : DateOnly := mkDateOnly 2024 1 31.
Definition mar_10 : DateOnly := mkDateOnly 2024 3 10.

Definition empty_world : World := mkWorld [] [] [].

(** One day of orders: two dishes sold twice each, and the same day with
    a dish called ["65"] in place of the second. *)
Definition tied_day : World :=
  mkWorld [sample_order 1 noon_jan_15 [line "Margherita" 250%float 2%float]
                        500%float "new";
           sample_order 2 (noon_jan_15 + 60000)
                        [line "Pepperoni" 300%float 2%float] 600%float "deleted"]
          [] [].

Definition numbered_day : World :=
  mkWorld [sample_order 1 noon_jan_15 [line "Margherita" 250%float 2%float]
                        500%float "new";
           sample_order 2 (noon_jan_15 + 60000)
                        [line "65" 300%float 2%float] 600%float "new"]
          [] [].

Definition itemless_day : World :=
  mkWorld [sample_order 1 noon_jan_15 [] 0%float "new"] [] [].

(** A dish named after a method of [Object.prototype], and a quantity
    sent as a string. *)
Definition method_day : World :=
  mkWorld [sample_order 1 noon_jan_15 [line "toString" 250%float 2%float]
                        500%float "new"] [] [].

Definition quoted_day : World :=
  mkWorld [sample_order 1 noon_jan_15
             [VObj [("name", VStr "Margherita"); ("price", VNum 250%float);
                    ("qty", VStr "2")]] 500%float "new"] [] [].

Definition two_managers : World :=
  mkWorld [sample_order 1 noon_jan_15 sample_items 800%float "new"]
          [Manager.mk 1 (Some "owner") (Some "pizza");
           Manager.mk 2 (Some "chef") (Some "dough")] [].

(** The world after [created] has been inserted and announced. *)
Definition persisted (w : World) (created : Order.t) : World :=
  mkWorld (orders w ++ [created]) (managers w) (emitted w ++ [newOrder created]).

(** ** Invariants of the collections *)

(** Every stored total is a number. *)
Definition totals_numeric (docs : list Order.t) : Prop :=
  forall o, In o docs -> is_nan (Order.total o) = false.

(** No stored order has a [null] among its items. *)
Definition items_walkable (docs : list Order.t) : Prop :=
  forall o, In o docs -> existsb nullish (Order.items o) = false.

(** Newest first. *)
Definition not_older (a b : Order.t) : Prop :=
  Order.createdAt b <= Order.createdAt a.

(** A day with three orders, the second one the newest, and an order
    that was deleted. *)
Definition busy_day : World :=
  mkWorld [sample_order 1 noon_jan_15 [line "Margherita" 250%float 2%float]
                        500%float "new";
           sample_order 2 (noon_jan_15 + 120000)
                        [line "Pepperoni" 300%float 1%float] 300%float "new";
           sample_order 3 (noon_jan_15 + 60000)
                        [line "Margherita" 250%float 1%float] 250%float "ready"]
          [Manager.mk 1 (Some "owner") (Some "pizza")] [].

Definition busy_day_with_a_deletion : World :=
  mkWorld (orders busy_day
           ++ [sample_order 4 (noon_jan_15 + 180000)
                            [line "Pepperoni" 300%float 3%float] 900%float
                            "deleted"])
          (managers busy_day) [].

(** A day on which more is sold than doubles can count one by one:
    2^53 pieces of the first dish, then 2^53 and one more of the
    second. *)
Definition rounding_day : World :=
  mkWorld [sample_order 1 noon_jan_15
             [line "Calzone" 1%float 9007199254740992%float;
              line "Margherita" 1%float 9007199254740992%float;
              line "Margherita" 1%float 1%float] 0%float "new"] [] [].

(** A payload whose total is beyond 2^53. *)
Definition large_payload : list (string * value) :=
  [("items", VArr [line "Calzone" 9007199254740992%float 1%float;
                   line "Margherita" 1%float 1%float])].

(** Identifiers as the path of a request carries them. *)
Definition id_3 : string := "000000000000000000000003".
Definition id_2 : string := "000000000000000000000002".
Definition id_4 : string := "000000000000000000000004".
Definition id_7 : string := "000000000000000000000007".


(** The handlers of the examples: the secret is ["s3cret"], and the
    primitives are the stand-ins above. *)
Definition sample_verify :=
  verifyAndCreateOrder sample_hmac (Some "s3cret") no_numerals decimal
                       hex24 no_dates updated_now.

Definition sample_updateStatus :=
  updateStatus decimal hex24 true.

Definition sample_topDish := topDish no_numerals decimal IST.

Definition sample_changeCredentials := changeCredentials decimal ne_null.

Definition sample_login := login ne_null.

(* ================================================================== *)
(** * Properties of the handlers *)

(** ** Objects and coercions *)

Lemma lookup_set_same {A : Type} (props : list (string * A)) (k : string) (v : A) :
  lookup (set props k v) k = Some v.
Proof.
  induction props as [|[k' v'] rest IH]; simpl.
  - rewrite String.eqb_refl. reflexivity.
  - destruct (String.eqb_spec k' k) as [->|Hne]; simpl.
    + rewrite String.eqb_refl. reflexivity.
    + destruct (String.eqb_spec k' k); [contradiction|exact IH].
Qed.

Lemma lookup_set_other {A : Type} (props : list (string * A)) (k k' : string)
      (v : A) :
  k <> k' -> lookup (set props k v) k' = lookup props k'.
Proof.
  intros Hne. induction props as [|[k0 v0] rest IH]; simpl.
  - destruct (String.eqb_spec k k'); [contradiction|reflexivity].
  - destruct (String.eqb_spec k0 k) as [->|Hk]; simpl.
    + destruct (String.eqb_spec k k'); [contradiction|reflexivity].
    + rewrite IH. reflexivity.
Qed.


Lemma field_set_same props k v : field (set props k v) k = v.
Proof. unfold field. rewrite lookup_set_same. reflexivity. Qed.

Lemma field_set_other props k k' v :
  k <> k' -> field (set props k v) k' = field props k'.
Proof. intros H. unfold field. rewrite lookup_set_other by exact H. reflexivity. Qed.

Lemma string_app_assoc (a b c : string) : ((a ++ b) ++ c = a ++ (b ++ c))%string.
Proof. induction a as [|x a IH]; simpl; [reflexivity|rewrite IH; reflexivity]. Qed.

(** ** The calendar *)

Lemma DayFromYear_succ (y : Z) :
  DayFromYear (y + 1) = DayFromYear y + DaysInYear y.
Proof.
  unfold DayFromYear, DaysInYear, InLeapYear.
  destruct (Z.eqb_spec (y mod 4) 0); cbn [negb];
    [destruct (Z.eqb_spec (y mod 100) 0); cbn [negb];
       [destruct (Z.eqb_spec (y mod 400) 0)|]|];
    Z.div_mod_to_equations; lia.
Qed.

Lemma DayFromYear_mono (a b : Z) : a <= b -> DayFromYear a <= DayFromYear b.
Proof. unfold DayFromYear. intros H. Z.div_mod_to_equations. lia. Qed.

Lemma year_up_spec (fuel : nat) (y0 y day : Z) :
  y0 <= y <= y0 + Z.of_nat fuel ->
  DayFromYear y <= day < DayFromYear (y + 1) ->
  year_up fuel y0 day = y.
Proof.
  revert y0. induction fuel as [|fuel IH]; intros y0 Hy Hday.
  - simpl. lia.
  - cbn [year_up]. destruct (Z.leb_spec (DayFromYear (y0 + 1)) day) as [Hle|Hgt].
    + apply IH; [|exact Hday].
      assert (y0 <> y).
      { intros ->. lia. }
      lia.
    + assert (y <= y0); [|lia].
      destruct (Z_le_gt_dec y y0) as [|Hlt]; [assumption|].
      pose proof (DayFromYear_mono (y0 + 1) y ltac:(lia)). lia.
Qed.

Lemma YearFromDay_spec (y day : Z) :
  DayFromYear y <= day < DayFromYear (y + 1) ->
  YearFromDay day = y.
Proof.
  intros Hday. unfold YearFromDay.
  apply year_up_spec; [|exact Hday].
  unfold DayFromYear in Hday.
  destruct (Z.leb_spec 0 day).
  - rewrite Z.abs_eq by lia.
    rewrite Z2Nat.id by (Z.div_mod_to_equations; lia).
    Z.div_mod_to_equations. lia.
  - rewrite Z.abs_neq by lia.
    rewrite Z2Nat.id by (Z.div_mod_to_equations; lia).
    Z.div_mod_to_equations. lia.
Qed.

Lemma MakeDay_in_year (y m d : Z) :
  0 <= m <= 11 ->
  MakeDay y m d = DayFromYear y + daysBeforeMonth (InLeapYear y) m + d - 1.
Proof.
  intros Hm. unfold MakeDay.
  rewrite Z.div_small, Z.mod_small, Z.add_0_r by lia. reflexivity.
Qed.

Ltac split_month m :=
  let H := fresh in
  assert (H : m = 0 \/ m = 1 \/ m = 2 \/ m = 3 \/ m = 4 \/ m = 5 \/ m = 6
              \/ m = 7 \/ m = 8 \/ m = 9 \/ m = 10 \/ m = 11) by lia;
  repeat (destruct H as [H|H]; [subst m|]); [..|subst m].

(** From a day number back to the calendar. *)
Lemma civil_of_day (y m d t : Z) :
  0 <= m <= 11 -> 1 <= d <= DaysInMonth y m ->
  Day t = MakeDay y m d ->
  YearFromTime t = y /\ MonthFromTime t = m /\ DateFromTime t = d.
Proof.
  intros Hm Hd Hday. rewrite MakeDay_in_year in Hday by exact Hm.
  assert (Hyear : YearFromTime t = y).
  { unfold YearFromTime. apply YearFromDay_spec.
    rewrite DayFromYear_succ, Hday. unfold DaysInYear, DaysInMonth in *.
    destruct (InLeapYear y); split_month m; cbn in Hd |- *; lia. }
  assert (Hmonth : MonthFromTime t = m).
  { unfold MonthFromTime, DayWithinYear. rewrite Hyear, Hday.
    unfold DaysInMonth in Hd.
    destruct (InLeapYear y); split_month m; cbn in Hd |- *;
      repeat match goal with
             | |- context [?a <? ?b] => destruct (Z.ltb_spec a b); try lia
             end; reflexivity. }
  repeat split; try assumption.
  unfold DateFromTime, DayWithinYear. rewrite Hmonth, Hyear, Hday. lia.
Qed.

Lemma valid_date_fields (date : DateOnly) :
  valid_date date = true ->
  0 <= year date <= 9999 /\ 1 <= month date <= 12
  /\ 1 <= day date <= DaysInMonth (year date) (month date - 1).
Proof.
  unfold valid_date. intros H.
  repeat (apply andb_prop in H; destruct H as [H ?]).
  repeat match goal with
         | Hb : (_ <=? _) = true |- _ => apply Z.leb_le in Hb
         end.
  lia.
Qed.

Lemma DaysInMonth_bounds (y m : Z) : 0 <= m <= 11 -> 28 <= DaysInMonth y m <= 31.
Proof.
  intros Hm. unfold DaysInMonth.
  destruct (InLeapYear y); split_month m; cbn; lia.
Qed.

Lemma daysBeforeMonth_bounds (leap : bool) (m : Z) :
  0 <= m <= 11 -> 0 <= daysBeforeMonth leap m <= 335.
Proof. intros Hm. destruct leap; split_month m; cbn; lia. Qed.

Lemma DayFromYear_bounds (y : Z) :
  0 <= y <= 9999 -> -719528 <= DayFromYear y <= 2932532.
Proof. intros H. unfold DayFromYear. Z.div_mod_to_equations. lia. Qed.

Lemma TimeClip_in_range (t : Z) :
  Z.abs t <= 8640000000000000 -> TimeClip t = Some t.
Proof.
  intros H. unfold TimeClip.
  destruct (Z.leb_spec (Z.abs t) 8640000000000000); [reflexivity|lia].
Qed.

(** A valid date is read as the midnight that opens it. *)
Lemma parseDate_valid (date : DateOnly) :
  valid_date date = true ->
  parseDate date
  = Some (MakeDay (year date) (month date - 1) (day date) * msPerDay)
  /\ -719528 <= MakeDay (year date) (month date - 1) (day date) <= 2932898.
Proof.
  intros Hv. unfold parseDate.
  destruct (valid_date_fields date Hv) as (Hy & Hm & Hd).
  pose proof (DaysInMonth_bounds (year date) (month date - 1) ltac:(lia)) as Hdim.
  assert (Hparse : parsable date = true).
  { unfold parsable. repeat (apply andb_true_intro; split); apply Z.leb_le; lia. }
  rewrite Hparse.
  assert (Hb : -719528 <= MakeDay (year date) (month date - 1) (day date)
               <= 2932898).
  { rewrite MakeDay_in_year by lia.
    pose proof (DayFromYear_bounds _ Hy).
    pose proof (daysBeforeMonth_bounds (InLeapYear (year date)) (month date - 1)
                  ltac:(lia)).
    pose proof (DaysInMonth_bounds (year date) (month date - 1) ltac:(lia)).
    lia. }
  split; [|exact Hb].
  unfold MakeDate. rewrite Z.add_0_r.
  apply TimeClip_in_range. unfold msPerDay. lia.
Qed.

(** The day before a date of the calendar is a date of the calendar. *)
Lemma day_before (y m d : Z) :
  0 <= m <= 11 -> 1 <= d <= DaysInMonth y m ->
  exists y' m' d',
    0 <= m' <= 11 /\ 1 <= d' <= DaysInMonth y' m'
    /\ MakeDay y' m' d' = MakeDay y m d - 1.
Proof.
  intros Hm Hd.
  destruct (Z_le_gt_dec 2 d) as [Hd2|Hd1].
  - exists y, m, (d - 1). repeat split; try lia.
    rewrite !MakeDay_in_year by lia. lia.
  - assert (d = 1) by lia. subst d.
    destruct (Z_le_gt_dec 1 m) as [Hm1|Hm0].
    + exists y, (m - 1), (DaysInMonth y (m - 1)).
      pose proof (DaysInMonth_bounds y (m - 1) ltac:(lia)).
      repeat split; try lia.
      rewrite !MakeDay_in_year by lia. unfold DaysInMonth.
      destruct (InLeapYear y); split_month m; cbn; lia.
    + assert (m = 0) by lia. subst m.
      exists (y - 1), 11, 31. repeat split; try lia.
      * unfold DaysInMonth. cbn. lia.
      * rewrite !MakeDay_in_year by lia.
        pose proof (DayFromYear_succ (y - 1)) as Hs.
        replace (y - 1 + 1) with y in Hs by lia. unfold DaysInYear in Hs.
        destruct (InLeapYear (y - 1)), (InLeapYear y); cbn; lia.
Qed.

(** The local day of a UTC midnight is a date of the calendar. *)
Lemma local_civil (date : DateOnly) (z : Z) :
  valid_date date = true ->
  - msPerDay < z < msPerDay ->
  exists y m d,
    0 <= m <= 11 /\ 1 <= d <= DaysInMonth y m
    /\ Day (MakeDay (year date) (month date - 1) (day date) * msPerDay + z)
       = MakeDay y m d.
Proof.
  intros Hv Hz. destruct (valid_date_fields date Hv) as (_ & Hm & Hd).
  set (L := MakeDay (year date) (month date - 1) (day date)).
  destruct (Z_le_gt_dec 0 z) as [Hpos|Hneg].
  - exists (year date), (month date - 1), (day date).
    repeat split; try lia. fold L.
    unfold Day. unfold msPerDay in *.
    Z.div_mod_to_equations. lia.
  - destruct (day_before (year date) (month date - 1) (day date) ltac:(lia) Hd)
      as (y & m & d & Hm' & Hd' & Hday).
    exists y, m, d. repeat split; try lia. rewrite Hday. fold L.
    unfold Day. unfold msPerDay in *.
    Z.div_mod_to_equations. lia.
Qed.


(** ** The sales window *)

Section Calendar.

Variable LocalTZA : Z -> bool -> Z.

(** [setDate(getDate() + n)] moves a midnight by [n] whole days, when
    the clock is not changed in between. *)
Lemma setDate_plus (date : DateOnly) (start n : Z) :
  valid_date date = true -> 0 <= n <= 7 ->
  parseDate date = Some start ->
  - msPerDay < LocalTZA start true < msPerDay ->
  steady_clock LocalTZA start (start + n * msPerDay) ->
  setDate LocalTZA (Some start)
          (option_map (fun v => v + n) (getDate LocalTZA (Some start)))
  = Some (start + n * msPerDay).
Proof.
  intros Hv Hn Hp Hz Hsteady. unfold steady_clock in Hsteady.
  destruct (parseDate_valid date Hv) as (Hp' & Hb).
  rewrite Hp in Hp'. injection Hp' as ->.
  set (L := MakeDay (year date) (month date - 1) (day date)) in *.
  set (z := LocalTZA (L * msPerDay) true) in *.
  destruct (local_civil date z Hv Hz) as (y & m & d & Hm & Hd & Hday).
  fold L in Hday.
  destruct (civil_of_day y m d (L * msPerDay + z) Hm Hd Hday)
    as (HY & HM & HD).
  cbn [getDate option_map setDate]. unfold LocalTime. fold z.
  rewrite HY, HM, HD.
  rewrite (MakeDay_in_year _ _ (d + n)) by lia.
  rewrite MakeDay_in_year in Hday by lia.
  assert (Hwithin : TimeWithinDay (L * msPerDay + z)
                    = L * msPerDay + z - Day (L * msPerDay + z) * msPerDay).
  { unfold TimeWithinDay, Day, msPerDay. Z.div_mod_to_equations. lia. }
  rewrite Hwithin, Hday. unfold UTC, MakeDate.
  match goal with
  | |- TimeClip (?x - LocalTZA ?x false) = _ =>
      replace x with (L * msPerDay + n * msPerDay + z) by lia
  end.
  rewrite Hsteady.
  replace (L * msPerDay + n * msPerDay + z - z)
    with (L * msPerDay + n * msPerDay) by lia.
  apply TimeClip_in_range. unfold msPerDay. lia.
Qed.

Lemma Day_local (L z : Z) :
  0 <= z < msPerDay -> Day (L * msPerDay + z) = L.
Proof.
  intros Hz. unfold Day. unfold msPerDay in *.
  rewrite Z.div_add_l by lia. rewrite Z.div_small by lia. lia.
Qed.

Lemma TimeWithinDay_local (L z : Z) :
  0 <= z < msPerDay -> TimeWithinDay (L * msPerDay + z) = z.
Proof.
  intros Hz. unfold TimeWithinDay. unfold msPerDay in *.
  rewrite Z.add_comm, Z.mod_add by lia. apply Z.mod_small. lia.
Qed.

(** Counting [d] days from the first of the following month. *)
Lemma MakeDay_next_month (date : DateOnly) (d : Z) :
  1 <= month date <= 12 ->
  MakeDay (year date) (month date) d
  = MakeDay (year (next_month date)) (month (next_month date) - 1) 1 + (d - 1).
Proof.
  intros Hm. unfold next_month.
  destruct (Z.eqb_spec (month date) 12) as [E|Hne]; cbn [year month].
  - rewrite E. unfold MakeDay.
    change (12 / 12) with 1. change (12 mod 12) with 0.
    change ((1 - 1) / 12) with 0. change ((1 - 1) mod 12) with 0.
    cbn [daysBeforeMonth]. rewrite !Z.add_0_r. lia.
  - replace (month date + 1 - 1) with (month date) by lia.
    rewrite !MakeDay_in_year by lia. lia.
Qed.

(** [setMonth(getMonth() + 1)] moves a midnight to the first of the
    following month plus the days of the date beyond the first, when
    the clock is not changed in between. *)
Lemma setMonth_plus (date : DateOnly) (start first : Z) :
  valid_date date = true ->
  parseDate date = Some start ->
  parseDate (first_of_next_month date) = Some first ->
  valid_date (first_of_next_month date) = true ->
  0 <= LocalTZA start true < msPerDay ->
  steady_clock LocalTZA start (first + (day date - 1) * msPerDay) ->
  setMonth LocalTZA (Some start)
           (option_map (fun v => v + 1) (getMonth LocalTZA (Some start)))
  = Some (first + (day date - 1) * msPerDay).
Proof.
  intros Hv Hp Hf Hvf Hz Hsteady. unfold steady_clock in Hsteady.
  destruct (parseDate_valid date Hv) as (Hp' & Hb).
  destruct (parseDate_valid _ Hvf) as (Hf' & Hbf).
  destruct (valid_date_fields date Hv) as (_ & Hm & Hd).
  pose proof (DaysInMonth_bounds (year date) (month date - 1) ltac:(lia)) as Hdim.
  rewrite Hp in Hp'. injection Hp' as ->.
  rewrite Hf in Hf'. injection Hf' as ->.
  set (L := MakeDay (year date) (month date - 1) (day date)) in *.
  set (z := LocalTZA (L * msPerDay) true) in *.
  destruct (civil_of_day (year date) (month date - 1) (day date)
              (L * msPerDay + z) ltac:(lia) Hd (Day_local L z Hz))
    as (HY & HM & HD).
  cbn [getMonth option_map setMonth]. unfold LocalTime. fold z.
  rewrite HY, HM, HD, TimeWithinDay_local by exact Hz.
  replace (month date - 1 + 1) with (month date) by lia.
  rewrite MakeDay_next_month by exact Hm.
  cbn [first_of_next_month year month day] in *.
  set (F := MakeDay (year (next_month date)) (month (next_month date) - 1) 1) in *.
  unfold UTC, MakeDate.
  match goal with
  | |- TimeClip (?x - LocalTZA ?x false) = _ =>
      replace x with (F * msPerDay + (day date - 1) * msPerDay + z) by lia
  end.
  rewrite Hsteady.
  replace (F * msPerDay + (day date - 1) * msPerDay + z - z)
    with (F * msPerDay + (day date - 1) * msPerDay) by lia.
  apply TimeClip_in_range. unfold msPerDay. lia.
Qed.

(** C5 (as amended).  For a date of the calendar and a server whose
    zone is less than a day away from UTC, the window of [salesSummary]
    opens at the midnight (UTC) of [date]; as long as the clock of the
    server is not changed between the two ends (no start or end of
    daylight saving time), it closes 7 days later for ["week"] and one
    day later for any period other than ["week"] and ["month"] (unset
    and ["day"] among them).  For ["month"], when the zone is at or
    ahead of UTC, it closes [day - 1] days after the first of the
    following calendar month: on the same day of the following month
    whenever that month has such a day. *)
Theorem salesWindow_bounds :
  forall (period : option string) (date : DateOnly),
    valid_date date = true ->
    exists start : Z,
      parseDate date = Some start
      /\ (- msPerDay < LocalTZA start true < msPerDay ->
          (period = Some "week" ->
           steady_clock LocalTZA start (start + 7 * msPerDay) ->
           salesWindow LocalTZA period date
           = (Some start, Some (start + 7 * msPerDay)))
          /\ (period = Some "month" ->
              0 <= LocalTZA start true ->
              valid_date (first_of_next_month date) = true ->
              exists first : Z,
                parseDate (first_of_next_month date) = Some first
                /\ (steady_clock LocalTZA start
                                 (first + (day date - 1) * msPerDay) ->
                    salesWindow LocalTZA period date
                    = (Some start, Some (first + (day date - 1) * msPerDay))
                    /\ (valid_date (next_month date) = true ->
                        salesWindow LocalTZA period date
                        = (parseDate date, parseDate (next_month date)))))
          /\ (period <> Some "week" -> period <> Some "month" ->
              steady_clock LocalTZA start (start + msPerDay) ->
              salesWindow LocalTZA period date
              = (Some start, Some (start + msPerDay)))).
Proof.
  intros period date Hv.
  destruct (parseDate_valid date Hv) as (Hp & _).
  eexists. split; [exact Hp|]. intros Htz.
  unfold salesWindow. rewrite Hp.
  split; [|split].
  - intros -> Hsteady. cbn [is_period]. change ("week" =? "week")%string with true.
    cbv iota. f_equal. apply (setDate_plus date); try assumption; lia.
  - intros -> Hpos Hvf. cbn [is_period].
    change ("month" =? "week")%string with false.
    change ("month" =? "month")%string with true. cbv iota.
    destruct (parseDate_valid _ Hvf) as (Hf & _).
    eexists. split; [exact Hf|]. intros Hsteady.
    pose proof (setMonth_plus date _ _ Hv Hp Hf Hvf (conj Hpos (proj2 Htz))
                              Hsteady) as Hset.
    split; [f_equal; exact Hset|].
    intros Hvn. f_equal. rewrite Hset.
    destruct (parseDate_valid _ Hvn) as (-> & _).
    destruct (valid_date_fields _ Hvn) as (_ & Hmn & _).
    f_equal. cbn [first_of_next_month year month day].
    replace (day (next_month date)) with (day date)
      by (unfold next_month; destruct (month date =? 12); reflexivity).
    rewrite !MakeDay_in_year by lia. lia.
  - intros Hw Hm Hsteady.
    assert (Ew : is_period period "week" = false).
    { destruct period as [s|]; [|reflexivity]. cbn.
      destruct (String.eqb_spec s "week"); [congruence|reflexivity]. }
    assert (Em : is_period period "month" = false).
    { destruct period as [s|]; [|reflexivity]. cbn.
      destruct (String.eqb_spec s "month"); [congruence|reflexivity]. }
    rewrite Ew, Em. f_equal.
    replace (MakeDay (year date) (month date - 1) (day date) * msPerDay + msPerDay)
      with (MakeDay (year date) (month date - 1) (day date) * msPerDay
            + 1 * msPerDay) by lia.
    apply (setDate_plus date); try assumption; lia.
Qed.

(** X12.  As long as the clock of the server is not changed within them,
    [topdish] and [orders] look at the twenty-four hours that open at
    the midnight (UTC) of the date, which is also the window of [sales]
    for a period that is neither ["week"] nor ["month"]. *)
Theorem dayWindow_one_day :
  forall (date : DateOnly),
    valid_date date = true ->
    exists start : Z,
      parseDate date = Some start
      /\ (- msPerDay < LocalTZA start true < msPerDay ->
          steady_clock LocalTZA start (start + msPerDay) ->
          dayWindow LocalTZA date = (Some start, Some (start + msPerDay)))
      /\ (forall period, period <> Some "week" -> period <> Some "month" ->
                         salesWindow LocalTZA period date
                         = dayWindow LocalTZA date).
Proof.
  intros date Hv.
  destruct (parseDate_valid date Hv) as (Hp & _).
  eexists. split; [exact Hp|]. split.
  - intros Htz Hsteady. unfold dayWindow. rewrite Hp. f_equal.
    replace (MakeDay (year date) (month date - 1) (day date) * msPerDay + msPerDay)
      with (MakeDay (year date) (month date - 1) (day date) * msPerDay
            + 1 * msPerDay) by lia.
    apply (setDate_plus date); try assumption; lia.
  - intros period Hw Hm. unfold salesWindow, dayWindow.
    assert (Ew : is_period period "week" = false).
    { destruct period as [s|]; [|reflexivity]. cbn.
      destruct (String.eqb_spec s "week"); [congruence|reflexivity]. }
    assert (Em : is_period period "month" = false).
    { destruct period as [s|]; [|reflexivity]. cbn.
      destruct (String.eqb_spec s "month"); [congruence|reflexivity]. }
    rewrite Ew, Em. reflexivity.
Qed.

End Calendar.

Section Properties.

Variable hmac_sha256_hex : string -> string -> string.
Variable StringToNumber : string -> number.
Variable NumberToString : number -> string.
Variable castObjectId : value -> option ObjectId.
Variable castDate : value -> result (option Z).
Variable initialUpdatedAt : value -> result (Z -> Z -> Z).
Variable omitUndefined : bool.
Variable storeQuery : value -> result (option string -> bool).
Variable LocalTZA : Z -> bool -> Z.

(** The handlers and the words of the specification, on the primitives
    of this section. *)
Local Abbreviation verify secret :=
  (verifyAndCreateOrder hmac_sha256_hex secret StringToNumber NumberToString
                        castObjectId castDate initialUpdatedAt).
Local Abbreviation create :=
  (Order.create NumberToString castObjectId castDate initialUpdatedAt).
Local Abbreviation total_of := (items_total StringToNumber NumberToString).
Local Abbreviation valid := (signature_valid hmac_sha256_hex NumberToString).
Local Abbreviation text_of := (signed_text NumberToString).
Local Abbreviation print := (ToString NumberToString).
Local Abbreviation plus := (js_add StringToNumber NumberToString).

(** ** Payment verification *)

(** [a + "|"] is the print of [a], then the bar. *)
Lemma plus_bar (a : value) :
  plus a (VStr "|") = (s <- print a ;; Ok (PStr (s ++ "|"))).
Proof.
  destruct a as [| |[]| | | | |]; try reflexivity.
  - unfold js_add, ToPrimitive. destruct (print (VArr elems)); reflexivity.
  - unfold js_add, ToPrimitive. destruct (print (VObj props)); reflexivity.
Qed.

(** [s + b] for a string [s] is [s], then the print of [b]. *)
Lemma string_plus (s : string) (b : value) :
  plus (VStr s) b = (t <- print b ;; Ok (PStr (s ++ t))).
Proof.
  destruct b as [| |[]| | | | |]; try reflexivity.
  - unfold js_add, ToPrimitive. cbn [bind].
    destruct (print (VArr elems)); reflexivity.
  - unfold js_add, ToPrimitive. cbn [bind].
    destruct (print (VObj props)); reflexivity.
Qed.

(** The message that is signed is the two identifiers, printed, around
    a bar. *)
Lemma signed_body (req : list (string * value)) :
  (head <- plus (field req "razorpay_order_id") (VStr "|") ;;
   plus (of_prim head) (field req "razorpay_payment_id"))
  = (text <- text_of req ;; Ok (PStr text)).
Proof.
  unfold signed_text. rewrite plus_bar.
  destruct (print (field req "razorpay_order_id")) as [a|e]; cbn [bind of_prim];
    [|reflexivity].
  rewrite string_plus.
  destruct (print (field req "razorpay_payment_id")) as [b|e]; cbn [bind];
    [|reflexivity].
  rewrite string_app_assoc. reflexivity.
Qed.

(** One step of [reduce] adds the line total. *)
Lemma add_item_ok (sum s : number) (i : value) :
  add_item StringToNumber NumberToString sum i = Ok s ->
  s = add sum (line_total StringToNumber NumberToString i).
Proof.
  unfold add_item, line_total, prop, field.
  destruct i; cbn [getProp bind]; try discriminate;
    match goal with
    | |- context [js_mul ?f ?g ?a ?b] => destruct (js_mul f g a b)
    end; cbn [bind]; intros H; try discriminate; injection H as <-; reflexivity.
Qed.

(** [reduce] walks the items once, from left to right; when it ends, it
    has added the line totals to its accumulator in that order. *)
Lemma reduce_sum (l : list value) (acc t : number) :
  reduce StringToNumber NumberToString l acc = Ok t ->
  t = fold_left (fun a i => add a (line_total StringToNumber NumberToString i))
                l acc.
Proof.
  revert acc. induction l as [|i l IH]; intros acc H; cbn [reduce fold_left] in *.
  - injection H as <-. reflexivity.
  - destruct (add_item StringToNumber NumberToString acc i) as [s|e] eqn:Hs;
      cbn [bind] in H; [|discriminate].
    apply add_item_ok in Hs. subst s. apply IH. exact H.
Qed.

Lemma reduce_null (l : list value) (acc : number) :
  existsb nullish l = true ->
  exists e, reduce StringToNumber NumberToString l acc = Throw e.
Proof.
  revert acc. induction l as [|i l IH]; intros acc H; cbn [reduce existsb] in *.
  - discriminate.
  - destruct (add_item StringToNumber NumberToString acc i) as [s|e] eqn:Hs;
      cbn [bind]; [|eexists; reflexivity].
    apply IH. destruct i; cbn [nullish orb] in H; try exact H;
      unfold add_item in Hs; discriminate.
Qed.

(** When the total can be computed, the payload is an object whose
    [items] is an array, and the total is the sum of the line totals. *)
Lemma items_total_ok (payload : value) (t : number) :
  total_of payload = Ok t ->
  exists props items,
    payload = VObj props /\ field props "items" = VArr items
    /\ t = sum_price_qty StringToNumber NumberToString items.
Proof.
  unfold items_total. intros H.
  destruct payload; cbn [getProp bind] in H; try discriminate.
  exists props. unfold field.
  destruct (lookup props "items") as [[]|]; try discriminate.
  exists elems. repeat split.
  apply reduce_sum in H. exact H.
Qed.

Lemma items_total_unreadable (payload : value) :
  items_unreadable payload = true ->
  exists e, total_of payload = Throw e.
Proof.
  unfold items_unreadable, items_total, prop. intros H.
  destruct payload; cbn [getProp bind]; try (eexists; reflexivity).
  unfold field in H.
  destruct (lookup props "items") as [[]|]; try (eexists; reflexivity).
  apply reduce_null. exact H.
Qed.

(** A valid signature is the HMAC of a text that could be printed. *)
Lemma valid_signed (key : string) (req : list (string * value)) :
  valid key req = true ->
  exists text,
    text_of req = Ok text
    /\ field req "razorpay_signature" = VStr (hmac_sha256_hex key text).
Proof.
  unfold signature_valid, expected_signature. intros H.
  destruct (text_of req) as [text|e]; cbn [bind] in H; [|discriminate].
  exists text. split; [reflexivity|].
  unfold strict_eq_string in H.
  destruct (field req "razorpay_signature"); try discriminate.
  apply String.eqb_eq in H. congruence.
Qed.

(** The outcomes of the handler, case by case. *)
Lemma verify_cases (secret : option string) (req : list (string * value))
      (now : Z) (w : World) :
  verify secret req now w
  = match text_of req, secret with
    | Ok text, Some key =>
        if strict_eq_string (hmac_sha256_hex key text)
                            (field req "razorpay_signature") then
          match total_of (field req "orderPayload") with
          | Ok total =>
              match create (set (own_props (field req "orderPayload"))
                                "total" (VNum total)) now (orders w) with
              | Ok created =>
                  (mkResponse 200 (JSuccessOrder created), persisted w created)
              | Throw _ => (mkResponse 500 (JSuccess false), w)
              end
          | Throw _ => (mkResponse 500 (JSuccess false), w)
          end
        else (mkResponse 200 (JSuccess false), w)
    | _, _ => (mkResponse 500 (JSuccess false), w)
    end.
Proof.
  unfold verifyAndCreateOrder.
  pose proof (signed_body req) as Hb. cbv beta in Hb.
  set (head := plus (field req "razorpay_order_id") (VStr "|")) in *.
  destruct (text_of req) as [text|e]; cbn [bind] in Hb.
  - destruct head as [h|e]; cbn [bind] in Hb |- *; [|discriminate].
    rewrite Hb. cbn [bind].
    destruct secret as [key|]; [|reflexivity].
    cbn [createHmac bind].
    destruct (strict_eq_string _ _); cbn [negb]; [|reflexivity].
    destruct (total_of _); cbn [bind]; [|reflexivity].
    destruct (create _ _ _); reflexivity.
  - destruct head as [h|e']; cbn [bind] in Hb |- *; [|reflexivity].
    rewrite Hb. reflexivity.
Qed.

(** The outcomes for a request whose signature is valid. *)
Lemma verify_valid (key : string) (req : list (string * value))
      (now : Z) (w : World) :
  valid key req = true ->
  verify (Some key) req now w
  = match total_of (field req "orderPayload") with
    | Ok total =>
        match create (set (own_props (field req "orderPayload"))
                          "total" (VNum total)) now (orders w) with
        | Ok created =>
            (mkResponse 200 (JSuccessOrder created), persisted w created)
        | Throw _ => (mkResponse 500 (JSuccess false), w)
        end
    | Throw _ => (mkResponse 500 (JSuccess false), w)
    end.
Proof.
  intros Hv. destruct (valid_signed key req Hv) as (text & Ht & Hs).
  rewrite verify_cases, Ht, Hs. cbn [strict_eq_string].
  rewrite String.eqb_refl. reflexivity.
Qed.

(** What a successful [Order.create] has stored. *)
Lemma create_ok (obj : list (string * value)) (now : Z) (docs : list Order.t)
      (o : Order.t) :
  create obj now docs = Ok o ->
  Order.castTotal (field obj "total") = Ok (Order.total o)
  /\ Order.assignId castObjectId (field obj "_id") docs = Ok (Order._id o)
  /\ Order.items o = Order.castItems (field obj "items")
  /\ Order.assignCreatedAt castDate (field obj "createdAt") now
     = Ok (Order.createdAt o)
  /\ Order.castStatus NumberToString (field obj "status") = Ok (Order.status o).
Proof.
  unfold Order.create. intros H.
  repeat match type of H with
         | bind ?c _ = _ => destruct c; cbn [bind] in H; [|discriminate]
         end.
  injection H as <-. cbn. repeat split; reflexivity.
Qed.

(** The identifier of a new document is that of no stored document. *)
Lemma freshId_above (docs : list Order.t) (o : Order.t) :
  In o docs -> Order._id o < Order.freshId docs.
Proof.
  unfold Order.freshId.
  induction docs as [|d docs IH]; intros H; cbn [fold_right In] in *.
  - contradiction.
  - destruct H as [->|H]; [lia|]. specialize (IH H). lia.
Qed.

Lemma assignId_new (v : value) (docs : list Order.t) (id : ObjectId) :
  Order.assignId castObjectId v docs = Ok id ->
  ~ In id (map Order._id docs).
Proof.
  unfold Order.assignId. intros H Hin.
  apply in_map_iff in Hin. destruct Hin as (d & Hd & Hin).
  assert (Hcheck : forall i, existsb (fun d => Order._id d =? i) docs = false ->
                             i <> Order._id d).
  { intros i He ->. apply Bool.not_true_iff_false in He. apply He.
    apply existsb_exists. exists d. split; [exact Hin|apply Z.eqb_refl]. }
  destruct v;
    try (injection H as <-; pose proof (freshId_above docs d Hin); lia);
    (destruct (castObjectId _) as [i|]; [|discriminate];
     destruct (existsb _ docs) eqn:He; [discriminate|];
     injection H as <-; exact (Hcheck _ He (eq_sym Hd))).
Qed.

(** Whether a document that brings no identifier is accepted does not
    depend on the documents already stored, nor on the clock. *)
Lemma create_again (obj : list (string * value)) (now now' : Z)
      (docs docs' : list Order.t) (o : Order.t) :
  field obj "_id" = VUndef ->
  create obj now docs = Ok o ->
  exists o',
    create obj now' docs' = Ok o'
    /\ Order._id o' = Order.freshId docs'
    /\ Order.items o' = Order.items o
    /\ Order.total o' = Order.total o.
Proof.
  unfold Order.create. intros Hid H. rewrite Hid in *.
  cbn [Order.assignId bind] in *.
  assert (Hat : forall v r, Order.assignCreatedAt castDate v now = Ok r ->
                            exists r', Order.assignCreatedAt castDate v now' = Ok r').
  { unfold Order.assignCreatedAt. intros v r Hr.
    destruct v; try (eexists; reflexivity);
      (destruct (castDate _); [eexists; reflexivity|discriminate]). }
  repeat match type of H with
         | bind (Order.assignCreatedAt ?f ?v ?n) _ = _ =>
             let E := fresh "E" in
             destruct (Order.assignCreatedAt f v n) eqn:E; cbn [bind] in H;
             [apply Hat in E; destruct E as [? ->]; cbn [bind]|discriminate]
         | bind ?c _ = _ => destruct c; cbn [bind] in H; [|discriminate]
         end.
  injection H as <-. eexists. repeat split; reflexivity.
Qed.



(** The successful outcome, read backwards. *)
Lemma verify_success (secret : option string) (req : list (string * value))
      (now : Z) (w w' : World) (created : Order.t) :
  verify secret req now w = (mkResponse 200 (JSuccessOrder created), w') ->
  exists key total,
    secret = Some key
    /\ valid key req = true
    /\ total_of (field req "orderPayload") = Ok total
    /\ create (set (own_props (field req "orderPayload")) "total" (VNum total))
              now (orders w) = Ok created
    /\ w' = persisted w created.
Proof.
  rewrite verify_cases. intros H.
  destruct (text_of req) as [text|e] eqn:Htext; [|discriminate].
  destruct secret as [key|]; [|discriminate].
  destruct (strict_eq_string _ _) eqn:He; [|discriminate].
  destruct (total_of _) as [total|] eqn:Ht; [|discriminate].
  destruct (create _ _ _) as [o|] eqn:Hc; [|discriminate].
  injection H as <- <-. exists key, total.
  repeat split; try assumption.
  unfold signature_valid, expected_signature. rewrite Htext. exact He.
Qed.


(** C2 (as amended).  With the secret configured.  When one of the two
    identifiers cannot be printed, there is no text to sign: the answer
    is the generic 500 failure and nothing changes.  Otherwise a
    signature that differs from the HMAC of the text gets the ordinary
    answer [{success:false}] (status 200) and changes nothing; a
    matching one gets [{success:true, order}] and exactly that order is
    inserted and announced, provided the total of the items can be
    computed and the store accepts the document; otherwise the answer
    is the generic 500 failure and nothing changes. *)
Theorem verify_signature_outcomes :
  forall (key : string) (req : list (string * value)) (now : Z) (w : World),
    (forall e, text_of req = Throw e ->
               verify (Some key) req now w = (mkResponse 500 (JSuccess false), w))
    /\ (forall text,
           text_of req = Ok text ->
           (field req "razorpay_signature" <> VStr (hmac_sha256_hex key text) ->
            verify (Some key) req now w = (mkResponse 200 (JSuccess false), w))
           /\ (field req "razorpay_signature" = VStr (hmac_sha256_hex key text) ->
               (forall total created,
                   total_of (field req "orderPayload") = Ok total ->
                   create (set (own_props (field req "orderPayload"))
                               "total" (VNum total)) now (orders w) = Ok created ->
                   verify (Some key) req now w
                   = (mkResponse 200 (JSuccessOrder created), persisted w created))
               /\ ((forall total created,
                       total_of (field req "orderPayload") = Ok total ->
                       create (set (own_props (field req "orderPayload"))
                                   "total" (VNum total)) now (orders w)
                       <> Ok created) ->
                   verify (Some key) req now w
                   = (mkResponse 500 (JSuccess false), w)))).
Proof.
  intros key req now w. rewrite verify_cases.
  split.
  - intros e ->. reflexivity.
  - intros text ->. split.
    + intros Hne.
      destruct (strict_eq_string _ _) eqn:He; [|reflexivity].
      exfalso. apply Hne. unfold strict_eq_string in He.
      destruct (field req "razorpay_signature"); try discriminate.
      apply String.eqb_eq in He. congruence.
    + intros ->. cbn [strict_eq_string]. rewrite String.eqb_refl. split.
      * intros total created -> ->. reflexivity.
      * intros Hno.
        destruct (total_of _) as [total|]; [|reflexivity].
        destruct (create _ _ _) as [o|] eqn:Hc; [|reflexivity].
        exfalso. exact (Hno total o eq_refl Hc).
Qed.

Lemma items_missing_unreadable (payload : value) :
  items_missing payload = true -> items_unreadable payload = true.
Proof.
  unfold items_missing, items_unreadable.
  destruct (prop payload "items"); try discriminate; reflexivity.
Qed.

(** C3 (as amended).  With a matching signature, when the items are
    missing or cannot be walked (no payload, no [items], [items] not an
    array, or a [null] among them) or when their total is not a number,
    the answer is the generic 500 failure and no document is created. *)
Theorem verify_unreadable_items_500 :
  forall (key : string) (req : list (string * value)) (now : Z) (w : World),
    valid key req = true ->
    items_missing (field req "orderPayload") = true
    \/ items_unreadable (field req "orderPayload") = true
    \/ total_of (field req "orderPayload") = Ok nan ->
    verify (Some key) req now w = (mkResponse 500 (JSuccess false), w).
Proof.
  intros key req now w Hsig Hcases. rewrite verify_valid by exact Hsig.
  assert (Hcases' : items_unreadable (field req "orderPayload") = true
                    \/ total_of (field req "orderPayload") = Ok nan).
  { destruct Hcases as [Hm|[Hu|Hn]]; [left|left|right]; try assumption.
    apply items_missing_unreadable. exact Hm. }
  destruct Hcases' as [Hbad|Hnan].
  - destruct (items_total_unreadable _ Hbad) as [e ->]. reflexivity.
  - rewrite Hnan. unfold Order.create.
    rewrite field_set_same.
    repeat match goal with
           | |- context [bind ?c _] =>
               match c with
               | Order.castTotal _ => fail 1
               | _ => destruct c; cbn [bind]; [|reflexivity]
               end
           end.
    reflexivity.
Qed.

(** C4 (as amended).  A request that made the server persist an order
    and whose payload carries no [_id], sent again, makes it persist a
    second one: both are stored, under different identifiers, with the
    same items and the same total.  Nothing looks at the gateway order
    id. *)
Theorem verify_twice_two_orders :
  forall (key : string) (req : list (string * value)) (now1 now2 : Z)
         (w w1 : World) (o1 : Order.t),
    prop (field req "orderPayload") "_id" = VUndef ->
    verify (Some key) req now1 w = (mkResponse 200 (JSuccessOrder o1), w1) ->
    exists (o2 : Order.t) (w2 : World),
      verify (Some key) req now2 w1 = (mkResponse 200 (JSuccessOrder o2), w2)
      /\ orders w2 = (orders w ++ [o1; o2])%list
      /\ Order._id o1 <> Order._id o2
      /\ Order.items o2 = Order.items o1
      /\ Order.total o2 = Order.total o1.
Proof.
  intros key req now1 now2 w w1 o1 Hid Hrun.
  destruct (verify_success _ req now1 w w1 o1 Hrun)
    as (key' & total & Hk & Hsig & Ht & Hc & ->).
  injection Hk as <-.
  destruct (items_total_ok _ _ Ht) as (props & items & Hp & _).
  rewrite Hp in *. cbn [prop own_props] in *.
  assert (Hno : field (set props "total" (VNum total)) "_id" = VUndef).
  { rewrite field_set_other by discriminate. exact Hid. }
  destruct (create_again _ now1 now2 (orders w) (orders (persisted w o1)) _ Hno Hc)
    as (o2 & Hc2 & Hid2 & Hitems & Htotal).
  exists o2, (persisted (persisted w o1) o2).
  rewrite verify_valid by exact Hsig. rewrite Hp, Ht. cbn [own_props].
  rewrite Hc2.
  repeat split; try assumption.
  - simpl. rewrite <- app_assoc. reflexivity.
  - assert (Hlt : Order._id o1 < Order.freshId (orders (persisted w o1))).
    { apply freshId_above. simpl. apply in_or_app. right. left. reflexivity. }
    lia.
Qed.

(** ** Sales *)

Lemma counted_query (start stop : Z) (o : Order.t) :
  Order.in_window start stop o && Order.not_deleted o = counted start stop o.
Proof.
  unfold counted, Order.in_window, Order.not_deleted, is_deleted.
  destruct (Order.status o); reflexivity.
Qed.

(** To walk the selected documents is to walk all of them and skip the
    others. *)
Lemma fold_left_filter {A B : Type} (f : B -> A -> B) (P : A -> bool)
      (l : list A) (acc : B) :
  fold_left f (filter P l) acc
  = fold_left (fun b x => if P x then f b x else b) l acc.
Proof.
  revert acc. induction l as [|x l IH]; intros acc; simpl; [reflexivity|].
  destruct (P x); simpl; apply IH.
Qed.

Lemma length_fold {A : Type} (l : list A) (n : nat) :
  fold_left (fun k _ => S k) l n = (n + List.length l)%nat.
Proof.
  revert n. induction l as [|x l IH]; intros n; simpl; [lia|].
  rewrite IH. lia.
Qed.

Lemma counted_iff (start stop : Z) (o : Order.t) :
  counted start stop o = true
  <-> start <= Order.createdAt o < stop /\ Order.status o <> Some "deleted".
Proof.
  unfold counted, is_deleted.
  rewrite !andb_true_iff, negb_true_iff, Z.leb_le, Z.ltb_lt.
  destruct (Order.status o) as [s|].
  - destruct (String.eqb_spec s "deleted") as [->|Hne].
    + split; [intros [_ H]; discriminate|intros [_ H]; congruence].
    + split; [intros [H _]; split; [lia|congruence]|intros [H _]; split; [lia|reflexivity]].
  - split; [intros [H _]; split; [lia|discriminate]|intros [H _]; split; [lia|reflexivity]].
Qed.

Lemma salesSummary_spec (period : option string) (date : DateOnly) (w : World)
      (start stop : Z) :
  salesWindow LocalTZA period date = (Some start, Some stop) ->
  salesSummary LocalTZA period date w
  = Ok (mkResponse 200 (JSales (sales_total start stop (orders w))
                               (sales_count start stop (orders w)))).
Proof.
  intros Hwin. unfold salesSummary. rewrite Hwin. cbn [find_between bind].
  rewrite (filter_ext _ (counted start stop) (counted_query start stop)).
  rewrite fold_left_filter.
  replace (List.length (filter (counted start stop) (orders w)))
    with (sales_count start stop (orders w)); [reflexivity|].
  unfold sales_count.
  rewrite <- (fold_left_filter (fun k _ => S k)), length_fold. reflexivity.
Qed.

Lemma sales_skip (start stop : Z) (before after : list Order.t) (o : Order.t) :
  counted start stop o = false ->
  sales_total start stop (before ++ o :: after)
  = sales_total start stop (before ++ after)
  /\ sales_count start stop (before ++ o :: after)
     = sales_count start stop (before ++ after).
Proof.
  intros Hc. unfold sales_total, sales_count.
  rewrite !fold_left_app. cbn [fold_left]. rewrite Hc. split; reflexivity.
Qed.

(** C6. Over its window [[start, stop)], [salesSummary] answers
    [{total, count}] where [total] adds up, in the order of the
    collection, the [total] of exactly the orders created in the window
    whose status is not ["deleted"], and [count] is their number; an
    order whose status is ["deleted"], or that lies outside the window,
    changes neither. *)
Theorem salesSummary_counts_undeleted :
  forall (period : option string) (date : DateOnly) (w : World)
         (start stop : Z),
    salesWindow LocalTZA period date = (Some start, Some stop) ->
    salesSummary LocalTZA period date w
    = Ok (mkResponse 200 (JSales (sales_total start stop (orders w))
                                 (sales_count start stop (orders w))))
    /\ (forall o, counted start stop o = true
                  <-> start <= Order.createdAt o < stop
                      /\ Order.status o <> Some "deleted")
    /\ sales_count start stop (orders w)
       = List.length (filter (counted start stop) (orders w))
    /\ (forall before after o,
           orders w = (before ++ o :: after)%list ->
           Order.status o = Some "deleted"
           \/ ~ (start <= Order.createdAt o < stop) ->
           salesSummary LocalTZA period date
                        (mkWorld (before ++ after) (managers w) (emitted w))
           = salesSummary LocalTZA period date w).
Proof.
  intros period date w start stop Hwin.
  split; [exact (salesSummary_spec period date w start stop Hwin)|].
  split; [exact (counted_iff start stop)|].
  split.
  - unfold sales_count.
    rewrite <- (fold_left_filter (fun k _ => S k)), length_fold. reflexivity.
  - intros before after o Hw Hout.
    rewrite !(salesSummary_spec _ _ _ start stop Hwin). cbn [orders].
    assert (Hc : counted start stop o = false).
    { destruct (counted start stop o) eqn:E; [|reflexivity].
      apply counted_iff in E. destruct E as [Hin Hst].
      destruct Hout as [Hd|Hd]; [congruence|contradiction]. }
    rewrite Hw. destruct (sales_skip start stop before after o Hc) as [-> ->].
    reflexivity.
Qed.


(** ** Manager credentials *)

Lemma holds_iff (s : string) (path : option string) :
  Manager.holds s path = true <-> path = Some s.
Proof.
  destruct path as [x|]; cbn.
  - rewrite String.eqb_eq. split; congruence.
  - split; discriminate.
Qed.

Lemma matches_iff (u p : string) (m : Manager.t) :
  Manager.matches u p m = true <-> has_credentials u p m.
Proof.
  unfold Manager.matches, has_credentials.
  rewrite andb_true_iff, !holds_iff. reflexivity.
Qed.

(** For two strings, [findOne] is a search for the first manager that
    holds them. *)
Lemma findOne_strings (u p : string) (docs : list Manager.t) :
  Manager.findOne storeQuery (VStr u) (VStr p) docs
  = Ok (find (Manager.matches u p) docs).
Proof. reflexivity. Qed.

Lemma find_first {A : Type} (f : A -> bool) (before after : list A) (m : A) :
  f m = true -> (forall d, In d before -> f d = false) ->
  find f (before ++ m :: after) = Some m.
Proof.
  intros Hm. induction before as [|d before IH]; intros Hb; simpl.
  - rewrite Hm. reflexivity.
  - rewrite (Hb d (or_introl eq_refl)). apply IH.
    intros d' Hd'. apply Hb. right. exact Hd'.
Qed.

Lemma find_none {A : Type} (f : A -> bool) (docs : list A) :
  (forall d, In d docs -> f d = false) -> find f docs = None.
Proof.
  induction docs as [|d docs IH]; intros H; simpl; [reflexivity|].
  rewrite (H d (or_introl eq_refl)). apply IH.
  intros d' Hd'. apply H. right. exact Hd'.
Qed.

Lemma save_split (m m' : Manager.t) (before after : list Manager.t) :
  Manager._id m' = Manager._id m ->
  (forall d, In d before -> Manager._id d <> Manager._id m) ->
  Manager.save m' (before ++ m :: after) = (before ++ m' :: after)%list.
Proof.
  intros Hid. induction before as [|d before IH]; intros Hb; simpl.
  - rewrite Hid, Z.eqb_refl. reflexivity.
  - destruct (Z.eqb_spec (Manager._id d) (Manager._id m')) as [E|_].
    + exfalso. apply (Hb d (or_introl eq_refl)). congruence.
    + f_equal. apply IH. intros d' Hd'. apply Hb. right. exact Hd'.
Qed.

Lemma not_matching (u p : string) (d : Manager.t) :
  ~ has_credentials u p d -> Manager.matches u p d = false.
Proof.
  intros H. destruct (Manager.matches u p d) eqn:E; [|reflexivity].
  exfalso. apply H. apply matches_iff. exact E.
Qed.


(** ** Order status *)

Lemma filter_none {A : Type} (f : A -> bool) (l : list A) :
  (forall x, In x l -> f x = false) -> filter f l = [].
Proof.
  induction l as [|x l IH]; intros H; simpl; [reflexivity|].
  rewrite (H x (or_introl eq_refl)). apply IH.
  intros y Hy. apply H. right. exact Hy.
Qed.

Lemma findByIdAndUpdate_absent (id : ObjectId) (update : Order.t -> Order.t)
      (docs : list Order.t) :
  (forall o, In o docs -> Order._id o <> id) ->
  Order.findByIdAndUpdate id update docs = (None, docs).
Proof.
  induction docs as [|o docs IH]; intros H; simpl; [reflexivity|].
  destruct (Z.eqb_spec (Order._id o) id) as [E|_].
  - exfalso. exact (H o (or_introl eq_refl) E).
  - rewrite IH; [reflexivity|]. intros o' Ho'. apply H. right. exact Ho'.
Qed.

(** C9 (as amended).  When [id] is read by the store as an identifier
    that names no stored order, and the store can cast the status,
    [updateStatus] answers [null] with status 200, broadcasts that
    [null] as ["orderUpdated"], and leaves every document as it was. *)
Theorem updateStatus_unknown_id :
  forall (id : string) (oid : ObjectId) (status : value)
         (update : option (option string)) (now : Z) (w : World),
    castObjectId (VStr id) = Some oid ->
    Order.castStatusUpdate NumberToString omitUndefined status = Ok update ->
    (forall o, In o (orders w) -> Order._id o <> oid) ->
    updateStatus NumberToString castObjectId omitUndefined id status now w
    = (Ok (mkResponse 200 (JOrder None)),
       mkWorld (orders w) (managers w) (emitted w ++ [orderUpdated None])).
Proof.
  intros id oid status update now w Hid Hst H. unfold updateStatus.
  rewrite Hid, Hst.
  rewrite (findByIdAndUpdate_absent oid _ (orders w) H).
  reflexivity.
Qed.

(** ** The best-selling dish *)

(** C8. On a day whose window holds no order, [topDish] answers [null]. *)
Theorem topDish_no_orders :
  forall (date : DateOnly) (w : World) (start stop : Z),
    dayWindow LocalTZA date = (Some start, Some stop) ->
    (forall o, In o (orders w) -> Order.in_window start stop o = false) ->
    topDish StringToNumber NumberToString LocalTZA date w
    = Ok (mkResponse 200 (JTopDish None)).
Proof.
  intros date w start stop Hwin Hnone.
  unfold topDish. rewrite Hwin. unfold find_between.
  rewrite filter_none; [reflexivity|].
  intros o Ho. rewrite (Hnone o Ho). reflexivity.
Qed.

(** *** The dictionary of counts *)

Lemma lookup_encode (counts : list (string * number)) (k : string) :
  lookup (encode counts) k
  = option_map PNum
               (option_map snd (find (fun c => String.eqb (fst c) k) counts)).
Proof.
  induction counts as [|[m c] rest IH]; simpl; [reflexivity|].
  destruct (String.eqb m k); [reflexivity|exact IH].
Qed.

Lemma set_encode (counts : list (string * number)) (k : string) (q : number) :
  set (encode counts) k
      (PNum (match find (fun c => String.eqb (fst c) k) counts with
             | Some c => one_more (snd c) q
             | None => one_more zero q
             end))
  = encode (bump counts k q).
Proof.
  unfold encode.
  induction counts as [|[m c] rest IH]; cbn [map set bump find fst snd];
    [reflexivity|].
  destruct (String.eqb m k); cbn [map set fst snd]; [reflexivity|].
  rewrite IH. reflexivity.
Qed.

(** One plain item bumps the count under its name. *)
Lemma count_item_plain (counts : list (string * number)) (i : value) :
  plain_item i = true ->
  count_item StringToNumber NumberToString (encode counts) i
  = Ok (encode (bump counts (fst (sold_line i)) (snd (sold_line i)))).
Proof.
  unfold plain_item, sold_line, count_item, prop. intros Hp.
  destruct i; try discriminate. cbn [getProp bind] in *. unfold field in *.
  destruct (lookup props "name") as [[| | | |n| | |]|]; try discriminate.
  destruct (lookup props "qty") as [[| | |q| | | |]|]; try discriminate.
  cbn [ToString bind fst snd].
  unfold plain_key in Hp. apply andb_prop in Hp. destruct Hp as [_ Hinh].
  unfold obj_set, obj_get.
  assert (Hproto : String.eqb n "__proto__" = false).
  { unfold inherited in Hinh. destruct (String.eqb n "__proto__"); [discriminate|reflexivity]. }
  rewrite Hproto, lookup_encode.
  rewrite <- set_encode.
  destruct (find _ counts) as [[m c]|]; cbn [option_map snd of_prim].
  - unfold js_or, one_more, so_far. cbn [truthy].
    destruct (negb (is_zero c || is_nan c)); reflexivity.
  - destruct (inherited n); try discriminate. reflexivity.
Qed.

Lemma count_items_plain (sold : list value) (counts : list (string * number)) :
  forallb plain_item sold = true ->
  count_items StringToNumber NumberToString (encode counts) sold
  = Ok (encode (tally counts (map sold_line sold))).
Proof.
  revert counts. induction sold as [|i sold IH]; intros counts Hp;
    cbn [forallb count_items map] in *.
  - reflexivity.
  - apply andb_prop in Hp. destruct Hp as [Hi Hs].
    rewrite (count_item_plain counts i Hi). cbn [bind].
    apply IH. exact Hs.
Qed.

Lemma count_items_app (a b : list value) (d : list (string * prim)) :
  count_items StringToNumber NumberToString d (a ++ b)
  = bind (count_items StringToNumber NumberToString d a)
         (fun d' => count_items StringToNumber NumberToString d' b).
Proof.
  revert d. induction a as [|i a IH]; intros d; cbn [count_items app bind];
    [reflexivity|].
  destruct (count_item StringToNumber NumberToString d i); cbn [bind];
    [apply IH|reflexivity].
Qed.

Lemma count_orders_flat (found : list Order.t) (d : list (string * prim)) :
  count_orders StringToNumber NumberToString d found
  = count_items StringToNumber NumberToString d (flat_map Order.items found).
Proof.
  revert d. induction found as [|o found IH]; intros d;
    cbn [count_orders flat_map]; [reflexivity|].
  rewrite count_items_app.
  destruct (count_items StringToNumber NumberToString d (Order.items o));
    cbn [bind]; [apply IH|reflexivity].
Qed.

Lemma mem_In (n : string) (names : list string) : mem n names = true <-> In n names.
Proof.
  unfold mem. rewrite existsb_exists. split.
  - intros (m & Hm & E). apply String.eqb_eq in E. subst. exact Hm.
  - intros H. exists n. split; [exact H|apply String.eqb_refl].
Qed.

Lemma mem_app (n : string) (a b : list string) :
  mem n (a ++ b) = mem n a || mem n b.
Proof. unfold mem. apply existsb_app. Qed.

Lemma filter_absorb {A : Type} (P Q : A -> bool) (l : list A) :
  (forall x, P x = true -> Q x = true) ->
  filter P (filter Q l) = filter P l.
Proof.
  intros H. induction l as [|x l IH]; simpl; [reflexivity|].
  destruct (Q x) eqn:Hq; simpl.
  - rewrite IH. reflexivity.
  - destruct (P x) eqn:Hp; [|exact IH].
    rewrite (H x Hp) in Hq. discriminate.
Qed.

Lemma filter_both {A : Type} (P Q : A -> bool) (l : list A) :
  filter P (filter Q l) = filter (fun x => Q x && P x) l.
Proof.
  induction l as [|x l IH]; simpl; [reflexivity|].
  destruct (Q x); simpl; [destruct (P x); rewrite IH; reflexivity|exact IH].
Qed.

Lemma cumulative_from_cons (c : number) (n : string) (q : number)
      (r : list (string * number)) (m : string) :
  cumulative_from c ((n, q) :: r) m
  = cumulative_from (if String.eqb n m then one_more c q else c) r m.
Proof. reflexivity. Qed.

Lemma bump_present (counts : list (string * number)) (n : string) (q : number) :
  NoDup (map fst counts) -> mem n (map fst counts) = true ->
  bump counts n q
  = map (fun c => if String.eqb n (fst c) then (fst c, one_more (snd c) q) else c)
        counts.
Proof.
  induction counts as [|[m c] rest IH]; intros Hnd Hin; cbn [bump map fst snd] in *.
  - discriminate.
  - inversion Hnd as [|? ? Hm Hrest]; subst.
    rewrite (String.eqb_sym n m).
    destruct (String.eqb_spec m n) as [->|Hne].
    + f_equal. rewrite <- (map_id rest) at 1. apply map_ext_in.
      intros [m' c'] Hc. cbn [fst snd].
      destruct (String.eqb_spec n m') as [->|_]; [|reflexivity].
      exfalso. apply Hm. change m' with (fst (m', c')). apply in_map. exact Hc.
    + f_equal. apply IH; [exact Hrest|].
      unfold mem in *. cbn [existsb] in Hin.
      destruct (String.eqb_spec n m); [congruence|exact Hin].
Qed.

Lemma bump_absent (counts : list (string * number)) (n : string) (q : number) :
  mem n (map fst counts) = false ->
  bump counts n q = (counts ++ [(n, one_more zero q)])%list.
Proof.
  induction counts as [|[m c] rest IH]; intros Hin; cbn [bump map fst app] in *.
  - reflexivity.
  - unfold mem in Hin. cbn [existsb] in Hin. apply orb_false_iff in Hin.
    destruct Hin as [Hne Hin]. rewrite String.eqb_sym, Hne.
    f_equal. apply IH. exact Hin.
Qed.

(** The dictionary after the items have been counted: under every name,
    the count it held, carried on by the sales; new names after the old
    ones, in the order in which they are first met. *)
Lemma tally_closed (sold counts : list (string * number)) :
  NoDup (map fst counts) ->
  tally counts sold
  = (map (fun c => (fst c, cumulative_from (snd c) sold (fst c))) counts
     ++ map (fun n => (n, cumulative sold n))
            (filter (fun n => negb (mem n (map fst counts)))
                    (first_seen (map fst sold))))%list.
Proof.
  revert counts. induction sold as [|[n q] r IH]; intros counts Hnd.
  - cbn. rewrite app_nil_r. rewrite <- (map_id counts) at 1.
    apply map_ext. intros [m c]. reflexivity.
  - change (tally counts ((n, q) :: r)) with (tally (bump counts n q) r).
    cbn [map fst first_seen filter].
    destruct (mem n (map fst counts)) eqn:Hmem; cbn [negb].
    + pose proof (bump_present counts n q Hnd Hmem) as Hb.
      assert (Hkeys : map fst (bump counts n q) = map fst counts).
      { rewrite Hb, map_map. apply map_ext. intros [m c]. cbn [fst].
        destruct (String.eqb n m); reflexivity. }
      rewrite IH by (rewrite Hkeys; exact Hnd).
      rewrite Hkeys. f_equal.
      * rewrite Hb, map_map. apply map_ext. intros [m c]. cbn [fst snd].
        rewrite cumulative_from_cons. destruct (String.eqb n m); reflexivity.
      * rewrite filter_absorb.
        -- apply map_ext_in. intros m Hm. apply filter_In in Hm.
           destruct Hm as [_ Hm]. unfold cumulative.
           rewrite cumulative_from_cons.
           destruct (String.eqb_spec n m) as [->|_]; [|reflexivity].
           rewrite Hmem in Hm. discriminate.
        -- intros m Hm. destruct (String.eqb_spec m n) as [->|_]; [|reflexivity].
           rewrite Hmem in Hm. discriminate.
    + pose proof (bump_absent counts n q Hmem) as Hb.
      assert (Hkeys : map fst (bump counts n q) = (map fst counts ++ [n])%list).
      { rewrite Hb, map_app. reflexivity. }
      rewrite IH.
      2:{ rewrite Hkeys. apply NoDup_app; [exact Hnd|repeat constructor; intros []|].
          intros m Hm [<-|[]]. apply mem_In in Hm. congruence. }
      rewrite Hkeys, Hb, map_app, <- app_assoc. f_equal.
      * apply map_ext_in. intros [m c] Hc. cbn [fst snd].
        rewrite cumulative_from_cons.
        destruct (String.eqb_spec n m) as [->|_]; [|reflexivity].
        exfalso. apply (in_map fst) in Hc. apply mem_In in Hc. cbn [fst] in Hc.
        congruence.
      * cbn [map app fst snd]. unfold cumulative at 2.
        rewrite cumulative_from_cons, String.eqb_refl.
        f_equal. rewrite filter_both.
        rewrite (filter_ext (fun m => negb (mem m (map fst counts ++ [n])))
                            (fun m => negb (String.eqb m n)
                                      && negb (mem m (map fst counts)))).
        2:{ intros m. rewrite mem_app. unfold mem at 2. cbn [existsb].
            rewrite orb_false_r, negb_orb. apply andb_comm. }
        apply map_ext_in. intros m Hm. apply filter_In in Hm.
        destruct Hm as [_ Hm]. unfold cumulative.
        rewrite cumulative_from_cons.
        destruct (String.eqb_spec n m) as [->|_]; [|reflexivity].
        rewrite String.eqb_refl in Hm. discriminate.
Qed.

Lemma first_seen_In (names : list string) (m : string) :
  In m (first_seen names) -> In m names.
Proof.
  induction names as [|n names IH]; simpl; [intros []|].
  intros [->|H]; [left; reflexivity|].
  apply filter_In in H. right. apply IH. apply H.
Qed.

Lemma filter_all {A : Type} (P : A -> bool) (l : list A) :
  (forall x, In x l -> P x = true) -> filter P l = l.
Proof.
  induction l as [|x l IH]; intros H; simpl; [reflexivity|].
  rewrite (H x (or_introl eq_refl)). f_equal. apply IH.
  intros y Hy. apply H. right. exact Hy.
Qed.

(** Without array indices among its keys, a dictionary lists its
    entries in the order in which they were created. *)
Lemma entries_plain {A : Type} (props : list (string * A)) :
  (forall kv, In kv props -> is_array_index (fst kv) = false) ->
  entries props = props.
Proof.
  intros H. unfold entries.
  assert (Hidx : indexed_entries props = []).
  { unfold indexed_entries. induction props as [|kv props IH]; [reflexivity|].
    cbn [fold_right]. rewrite IH by (intros kv' Hkv'; apply H; right; exact Hkv').
    specialize (H kv (or_introl eq_refl)). unfold is_array_index in H.
    destruct (array_index (fst kv)); [discriminate|reflexivity]. }
  rewrite Hidx. cbn [map app]. apply filter_all.
  intros kv Hkv. rewrite (H kv Hkv). reflexivity.
Qed.

(** *** The sort and its first entry *)

Lemma sort_insert_head {A : Type} (cmp : A -> A -> number) (x : A) (s : list A) :
  hd_error (sort_insert cmp x s)
  = match hd_error s with
    | Some y => if positive (cmp x y) then Some y else Some x
    | None => Some x
    end.
Proof.
  destruct s as [|y s]; cbn [sort_insert hd_error]; [reflexivity|].
  destruct (positive (cmp x y)); reflexivity.
Qed.

Lemma sort_by_count_head (counts : list (string * number)) :
  hd_error (sort (by_count_desc StringToNumber) (encode counts))
  = option_map (fun c => (fst c, PNum (snd c))) (first_max counts).
Proof.
  induction counts as [|x rest IH]; [reflexivity|].
  change (sort (by_count_desc StringToNumber) (encode (x :: rest)))
    with (sort_insert (by_count_desc StringToNumber) (fst x, PNum (snd x))
                      (sort (by_count_desc StringToNumber) (encode rest))).
  rewrite sort_insert_head, IH. cbn [first_max].
  destruct (first_max rest) as [y|]; cbn [option_map]; [|reflexivity].
  unfold by_count_desc, exceeds. cbn [snd prim_number].
  destruct (positive (sub (snd y) (snd x))); reflexivity.
Qed.

Lemma orderable_spec (counts : list number) :
  orderable counts = true ->
  consistent counts
  /\ forall a b, In a counts -> In b counts -> exceeds a b = ltb b a.
Proof.
  unfold orderable. intros H.
  assert (Hall : forall a b c, In a counts -> In b counts -> In c counts ->
            exceeds a b = ltb b a
            /\ (ltb a b = true -> ltb b c = true -> ltb a c = true)
            /\ (ltb a b = false -> ltb b c = false -> ltb a c = false)).
  { intros a b c Ha Hb Hc.
    rewrite forallb_forall in H. specialize (H a Ha).
    rewrite forallb_forall in H. specialize (H b Hb).
    apply andb_prop in H. destruct H as [Hagree H].
    rewrite forallb_forall in H. specialize (H c Hc).
    apply andb_prop in H. destruct H as [Ht Hn].
    split; [apply Bool.eqb_prop; exact Hagree|].
    split.
    - intros E1 E2. rewrite E1, E2 in Ht. exact Ht.
    - intros E1 E2. rewrite E1, E2 in Hn. cbn in Hn.
      apply negb_true_iff. exact Hn. }
  split.
  - intros a b c Ha Hb Hc.
    destruct (Hall a b c Ha Hb Hc) as (Eab & _).
    destruct (Hall b c a Hb Hc Ha) as (Ebc & _).
    destruct (Hall a c b Ha Hc Hb) as (Eac & _).
    destruct (Hall c b a Hc Hb Ha) as (_ & Ht & Hn).
    rewrite Eab, Ebc, Eac. split; intros E1 E2.
    + exact (Ht E2 E1).
    + exact (Hn E2 E1).
  - intros a b Ha Hb. destruct (Hall a b a Ha Hb Ha) as (E & _). exact E.
Qed.

Lemma first_max_spec (counts : list (string * number)) (x : string * number) :
  consistent (map snd counts) ->
  first_max counts = Some x ->
  exists before after,
    counts = (before ++ x :: after)%list
    /\ (forall y, In y before -> exceeds (snd x) (snd y) = true)
    /\ (forall y, In y after -> exceeds (snd y) (snd x) = false).
Proof.
  revert x. induction counts as [|a rest IH]; intros x Hcons H;
    cbn [first_max] in H.
  - discriminate.
  - assert (Hrest : consistent (map snd rest)).
    { intros p q r Hp Hq Hr. apply Hcons; right; assumption. }
    destruct (first_max rest) as [y|] eqn:Hr.
    + destruct (IH y Hrest eq_refl) as (before & after & -> & Hb & Ha).
      assert (Hin : forall z, In z (before ++ y :: after)%list ->
                              In (snd z) (map snd (a :: before ++ y :: after))).
      { intros z Hz. right. apply in_map. exact Hz. }
      assert (Hina : In (snd a) (map snd (a :: before ++ y :: after))).
      { left. reflexivity. }
      assert (Hiny : In y (before ++ y :: after)%list).
      { apply in_or_app. right. left. reflexivity. }
      destruct (exceeds (snd y) (snd a)) eqn:Hya; injection H as <-.
      * exists (a :: before), after. repeat split; [|exact Ha].
        intros z [<-|Hz]; [exact Hya|exact (Hb z Hz)].
      * exists [], (before ++ y :: after)%list. repeat split; [intros ? []|].
        intros z Hz. pose proof (Hin z Hz) as Hzin.
        apply in_app_or in Hz. destruct Hz as [Hz|[<-|Hz]].
        -- destruct (exceeds (snd z) (snd a)) eqn:Hza; [|reflexivity].
           destruct (Hcons (snd y) (snd z) (snd a) (Hin y Hiny) Hzin Hina)
             as [Ht _].
           rewrite (Ht (Hb z Hz) Hza) in Hya. discriminate.
        -- exact Hya.
        -- destruct (Hcons (snd z) (snd y) (snd a) Hzin (Hin y Hiny) Hina)
             as [_ Hn].
           exact (Hn (Ha z Hz) Hya).
    + injection H as <-. destruct rest as [|b rest].
      * exists [], []. repeat split; intros ? [].
      * cbn [first_max] in Hr. destruct (first_max rest) as [y|];
          [destruct (exceeds (snd y) (snd b))|]; discriminate.
Qed.

Lemma first_max_none (counts : list (string * number)) :
  first_max counts = None -> counts = [].
Proof.
  destruct counts as [|a rest]; [reflexivity|]. cbn [first_max].
  destruct (first_max rest) as [y|]; [destruct (exceeds (snd y) (snd a))|];
    discriminate.
Qed.

(** The answer of [topDish] when every item sold in the window is a
    plain one. *)
Lemma topDish_plain (date : DateOnly) (w : World) (start stop : Z) :
  dayWindow LocalTZA date = (Some start, Some stop) ->
  forallb plain_item
          (flat_map Order.items (filter (Order.in_window start stop) (orders w)))
  = true ->
  topDish StringToNumber NumberToString LocalTZA date w
  = Ok (mkResponse 200
          (JTopDish
             (option_map (fun c => (fst c, PNum (snd c)))
                (first_max
                   (map (fun n => (n, cumulative
                                        (map sold_line
                                             (flat_map Order.items
                                                (filter (Order.in_window start stop)
                                                        (orders w)))) n))
                        (first_seen
                           (map fst
                                (map sold_line
                                     (flat_map Order.items
                                        (filter (Order.in_window start stop)
                                                (orders w))))))))))).
Proof.
  intros Hwin Hplain. unfold topDish. rewrite Hwin. cbn [find_between bind].
  rewrite (filter_ext _ (Order.in_window start stop))
    by (intros o; apply andb_true_r).
  set (items := flat_map Order.items
                         (filter (Order.in_window start stop) (orders w)))
    in Hplain |- *.
  rewrite count_orders_flat. fold items.
  change (@nil (string * prim)) with (encode []).
  rewrite (count_items_plain items [] Hplain). cbn [bind].
  rewrite (tally_closed (map sold_line items) []) by constructor.
  cbn [map app mem existsb negb].
  rewrite (filter_all (fun _ : string => true)) by reflexivity.
  set (T := map (fun n => (n, cumulative (map sold_line items) n))
                (first_seen (map fst (map sold_line items)))).
  rewrite entries_plain.
  - pose proof (sort_by_count_head T) as Hhead.
    destruct (sort (by_count_desc StringToNumber) (encode T)) as [|top rest];
      cbn [hd_error] in Hhead; rewrite <- Hhead; [reflexivity|].
    destruct top. reflexivity.
  - intros kv Hkv. unfold encode, T in Hkv. rewrite !map_map in Hkv.
    apply in_map_iff in Hkv. destruct Hkv as (n & <- & Hn). cbn [fst].
    apply first_seen_In in Hn. rewrite ?map_map in Hn.
    apply in_map_iff in Hn. destruct Hn as (i & <- & Hi).
    rewrite forallb_forall in Hplain. specialize (Hplain i Hi).
    unfold plain_item in Hplain. unfold sold_line.
    destruct (prop i "name"); try discriminate.
    destruct (prop i "qty") as [| | |q| | | |]; try discriminate.
    cbn [fst]. unfold plain_key in Hplain.
    apply andb_prop in Hplain. destruct Hplain as [Hidx _].
    apply negb_true_iff in Hidx. exact Hidx.
Qed.

(** C7 (as amended).  When every item sold in the day's window has a
    string name that is an ordinary dictionary key and a numeric
    quantity, and the counts of the day can be ordered (none is [NaN]):
    if no item at all was sold, [topDish] answers [null]; otherwise it
    answers [{_id, count}] where [count] is the cumulative quantity
    sold under the name [_id], every name first met earlier has sold
    less than [count] and no name first met later has sold more.
    Orders count whatever their status, and quantities are added as
    doubles. *)
Theorem topDish_first_best_seller :
  forall (date : DateOnly) (w : World) (start stop : Z),
    dayWindow LocalTZA date = (Some start, Some stop) ->
    forallb plain_item
            (flat_map Order.items
                      (filter (Order.in_window start stop) (orders w))) = true ->
    let sold :=
      map sold_line
          (flat_map Order.items
                    (filter (Order.in_window start stop) (orders w))) in
    orderable (map (cumulative sold) (first_seen (map fst sold))) = true ->
    (sold = [] ->
     topDish StringToNumber NumberToString LocalTZA date w
     = Ok (mkResponse 200 (JTopDish None)))
    /\ (sold <> [] ->
        exists (name : string) (count : number) (before after : list string),
          topDish StringToNumber NumberToString LocalTZA date w
          = Ok (mkResponse 200 (JTopDish (Some (name, PNum count))))
          /\ count = cumulative sold name
          /\ first_seen (map fst sold) = (before ++ name :: after)%list
          /\ (forall m, In m before -> ltb (cumulative sold m) count = true)
          /\ (forall m, In m after -> ltb count (cumulative sold m) = false)).
Proof.
  intros date w start stop Hwin Hplain sold Horder.
  rewrite (topDish_plain date w start stop Hwin Hplain). fold sold.
  split.
  - intros ->. reflexivity.
  - intros Hne.
    set (T := map (fun n => (n, cumulative sold n)) (first_seen (map fst sold))).
    assert (Hsnd : map snd T = map (cumulative sold) (first_seen (map fst sold))).
    { unfold T. rewrite map_map. reflexivity. }
    destruct (orderable_spec _ Horder) as [Hcons Hagree].
    rewrite <- Hsnd in Hcons, Hagree.
    destruct (first_max T) as [[name count]|] eqn:Hmax.
    + destruct (first_max_spec T _ Hcons Hmax) as (tb & ta & HT & Hb & Ha).
      assert (Hval : forall y, In y T -> snd y = cumulative sold (fst y)).
      { intros y Hy. apply in_map_iff in Hy. destruct Hy as (n & <- & _). reflexivity. }
      assert (HinT : forall y, In y tb \/ In y ta \/ y = (name, count) -> In y T).
      { intros y Hy. rewrite HT. apply in_or_app.
        destruct Hy as [Hy | [Hy | ->]]; [left; exact Hy|right; right; exact Hy|].
        right. left. reflexivity. }
      assert (Hcount : count = cumulative sold name).
      { apply (Hval (name, count)). apply HinT. right. right. reflexivity. }
      assert (Htop : In count (map snd T)).
      { change count with (snd (name, count)). apply in_map. apply HinT.
        right. right. reflexivity. }
      exists name, count, (map fst tb), (map fst ta).
      repeat split.
      * exact Hcount.
      * assert (Hkeys : map fst T = first_seen (map fst sold)).
        { unfold T. rewrite map_map. apply map_id. }
        rewrite <- Hkeys, HT, map_app. reflexivity.
      * intros m Hm. apply in_map_iff in Hm. destruct Hm as (y & <- & Hy).
        assert (HyT : In y T) by (apply HinT; left; exact Hy).
        rewrite <- (Hval y HyT).
        rewrite <- (Hagree count (snd y) Htop (in_map snd _ _ HyT)).
        exact (Hb y Hy).
      * intros m Hm. apply in_map_iff in Hm. destruct Hm as (y & <- & Hy).
        assert (HyT : In y T) by (apply HinT; right; left; exact Hy).
        rewrite <- (Hval y HyT).
        rewrite <- (Hagree (snd y) count (in_map snd _ _ HyT) Htop).
        exact (Ha y Hy).
    + exfalso. apply first_max_none in Hmax. unfold T in Hmax.
      destruct sold as [|l sold']; [exact (Hne eq_refl)|]. discriminate.
Qed.


(** ** Further properties of payment verification *)

(** The three outcomes of the handler. *)
Lemma verify_outcomes :
  forall (secret : option string) (req : list (string * value)) (now : Z)
         (w : World),
    verify secret req now w = (mkResponse 200 (JSuccess false), w)
    \/ verify secret req now w = (mkResponse 500 (JSuccess false), w)
    \/ exists created,
        verify secret req now w
        = (mkResponse 200 (JSuccessOrder created), persisted w created)
        /\ ~ In (Order._id created) (map Order._id (orders w)).
Proof.
  intros secret req now w. rewrite verify_cases.
  destruct (text_of req) as [text|e]; [|right; left; reflexivity].
  destruct secret as [key|]; [|right; left; reflexivity].
  destruct (strict_eq_string _ _); [|left; reflexivity].
  destruct (total_of _) as [total|]; [|right; left; reflexivity].
  destruct (create _ _ _) as [o|] eqn:Hc; [|right; left; reflexivity].
  right. right. exists o. split; [reflexivity|].
  destruct (create_ok _ _ _ _ Hc) as (_ & Hid & _).
  exact (assignId_new _ _ _ Hid).
Qed.

(** X1.  The handler answers in one of three ways, and it touches the
    collections and the broadcast channel only when it answers
    [{success:true, order}]: then the order of the answer, whose
    identifier no stored order has, is appended and announced once. *)
Theorem verify_all_or_nothing :
  forall (secret : option string) (req : list (string * value)) (now : Z)
         (w : World),
    verify secret req now w = (mkResponse 200 (JSuccess false), w)
    \/ verify secret req now w = (mkResponse 500 (JSuccess false), w)
    \/ exists created,
        verify secret req now w
        = (mkResponse 200 (JSuccessOrder created),
           mkWorld (orders w ++ [created]) (managers w)
                   (emitted w ++ [newOrder created]))
        /\ ~ In (Order._id created) (map Order._id (orders w)).
Proof. exact verify_outcomes. Qed.

(** Without [RAZORPAY_KEY_SECRET] in the environment no request is ever
    verified: every one is answered 500 and nothing changes. *)
Lemma verify_without_secret :
  forall (req : list (string * value)) (now : Z) (w : World),
    verify None req now w = (mkResponse 500 (JSuccess false), w).
Proof.
  intros req now w. rewrite verify_cases.
  destruct (text_of req); reflexivity.
Qed.

(** X2.  A signature that is not a string (missing, [null], a number, an
    array, ...) never verifies and nothing is stored: the answer is the
    ordinary [{success:false}] when the two identifiers can be printed,
    and the generic 500 failure when one of them cannot. *)
Theorem verify_signature_not_a_string :
  forall (key : string) (req : list (string * value)) (now : Z) (w : World),
    (forall s, field req "razorpay_signature" <> VStr s) ->
    verify (Some key) req now w
    = (mkResponse (match text_of req with Ok _ => 200 | Throw _ => 500 end)
                  (JSuccess false), w).
Proof.
  intros key req now w Hsig. rewrite verify_cases.
  destruct (text_of req) as [text|e]; [|reflexivity].
  unfold strict_eq_string.
  destruct (field req "razorpay_signature"); try reflexivity.
  exfalso. exact (Hsig s eq_refl).
Qed.

(** X3.  The identifiers of the orders stay pairwise distinct. *)
Theorem verify_keeps_ids_distinct :
  forall (secret : option string) (req : list (string * value)) (now : Z)
         (w : World),
    NoDup (map Order._id (orders w)) ->
    NoDup (map Order._id (orders (snd (verify secret req now w)))).
Proof.
  intros secret req now w Hnd.
  destruct (verify_outcomes secret req now w)
    as [-> | [-> | (o & -> & Hid)]]; try exact Hnd.
  cbn [snd persisted orders]. rewrite map_app. cbn [map].
  apply NoDup_app; [exact Hnd|repeat constructor; intros []|].
  intros x Hx [<-|[]]. exact (Hid Hx).
Qed.


(** *** Invariants *)



(** ** Further properties of the status update *)

Local Abbreviation update_status :=
  (updateStatus NumberToString castObjectId omitUndefined).

Lemma findByIdAndUpdate_present (id : ObjectId) (f : Order.t -> Order.t)
      (before after : list Order.t) (o : Order.t) :
  (forall d, In d before -> Order._id d <> id) ->
  Order._id o = id ->
  Order.findByIdAndUpdate id f (before ++ o :: after)
  = (Some (f o), (before ++ f o :: after)%list).
Proof.
  intros Hb Ho. induction before as [|d before IH]; cbn [app Order.findByIdAndUpdate].
  - rewrite Ho, Z.eqb_refl. reflexivity.
  - destruct (Z.eqb_spec (Order._id d) id) as [E|_].
    + exfalso. exact (Hb d (or_introl eq_refl) E).
    + rewrite IH by (intros d' Hd'; apply Hb; right; exact Hd'). reflexivity.
Qed.

(** The update touches one document at most. *)
Lemma findByIdAndUpdate_pointwise (id : ObjectId) (f : Order.t -> Order.t)
      (docs : list Order.t) :
  Forall2 (fun o o' => o' = o \/ o' = f o)
          docs (snd (Order.findByIdAndUpdate id f docs)).
Proof.
  induction docs as [|o docs IH]; cbn [Order.findByIdAndUpdate].
  - constructor.
  - destruct (Order._id o =? id).
    + cbn [snd]. constructor; [right; reflexivity|].
      clear IH. induction docs; constructor; [left; reflexivity|assumption].
    + destruct (Order.findByIdAndUpdate id f docs) as [r rest].
      cbn [snd] in *. constructor; [left; reflexivity|exact IH].
Qed.

(** Whatever is sent, the handler touches one order at most, and of that
    one only the status and [updatedAt]. *)
Lemma updateStatus_pointwise (id : string) (status : value) (now : Z) (w : World) :
  exists u,
    Forall2 (fun o o' => o' = o \/ o' = Order.apply_update u now o)
            (orders w) (orders (snd (update_status id status now w)))
    /\ managers (snd (update_status id status now w)) = managers w.
Proof.
  assert (Hsame : forall u, Forall2 (fun o o' => o' = o \/ o' = Order.apply_update u now o)
                                    (orders w) (orders w)).
  { intros u. induction (orders w); constructor; [left; reflexivity|assumption]. }
  unfold updateStatus.
  destruct (castObjectId (VStr id)) as [oid|].
  - destruct (Order.castStatusUpdate NumberToString omitUndefined status)
      as [u|e].
    + exists u.
      pose proof (findByIdAndUpdate_pointwise oid (Order.apply_update u now)
                                              (orders w)) as H.
      destruct (Order.findByIdAndUpdate oid _ (orders w)) as [r docs].
      cbn [snd orders managers] in *. split; [exact H|reflexivity].
    + exists None. split; [apply Hsame|reflexivity].
  - exists None.
    destruct (Order.castStatusUpdate NumberToString omitUndefined status);
      (split; [apply Hsame|reflexivity]).
Qed.

Lemma pointwise_map {A : Type} (f : Order.t -> A) (g : Order.t -> Order.t)
      (docs docs' : list Order.t) :
  (forall o, f (g o) = f o) ->
  Forall2 (fun o o' => o' = o \/ o' = g o) docs docs' ->
  map f docs' = map f docs.
Proof.
  intros Hf H. induction H as [|o o' docs docs' Ho _ IH]; [reflexivity|].
  cbn [map]. rewrite IH. destruct Ho as [->| ->]; [|rewrite Hf]; reflexivity.
Qed.

(** The handler on an identifier the store can read and a status that
    is a string. *)
Lemma updateStatus_string (id : string) (oid : ObjectId) (status : string)
      (now : Z) (w : World) :
  castObjectId (VStr id) = Some oid ->
  update_status id (VStr status) now w
  = (let (order, docs) :=
       Order.findByIdAndUpdate oid (Order.set_status status now) (orders w) in
     (Ok (mkResponse 200 (JOrder order)),
      mkWorld docs (managers w) (emitted w ++ [orderUpdated order]))).
Proof. intros Hid. unfold updateStatus. rewrite Hid. reflexivity. Qed.

(** X6.  When some order has the identifier, the first such order takes the
    new status and the time of the update and keeps everything else;
    the updated document is what is answered and what is broadcast; no
    other document, and no manager, is touched. *)
Theorem updateStatus_known_id :
  forall (id : string) (oid : ObjectId) (status : string) (now : Z) (w : World)
         (before after : list Order.t) (o : Order.t),
    castObjectId (VStr id) = Some oid ->
    orders w = (before ++ o :: after)%list ->
    (forall d, In d before -> Order._id d <> oid) ->
    Order._id o = oid ->
    exists o',
      update_status id (VStr status) now w
      = (Ok (mkResponse 200 (JOrder (Some o'))),
         mkWorld (before ++ o' :: after) (managers w)
                 (emitted w ++ [orderUpdated (Some o')]))
      /\ Order.status o' = Some status
      /\ Order.updatedAt o' = now
      /\ Order._id o' = oid
      /\ Order.items o' = Order.items o
      /\ Order.total o' = Order.total o
      /\ Order.createdAt o' = Order.createdAt o.
Proof.
  intros id oid status now w before after o Hid Hw Hb Ho.
  exists (Order.set_status status now o).
  rewrite (updateStatus_string id oid status now w Hid).
  rewrite Hw, (findByIdAndUpdate_present oid _ before after o Hb Ho).
  repeat split. exact Ho.
Qed.

(** X7.  Whatever the identifier and the status, an update leaves the
    number and the order of the documents, and the identifier, items,
    total and creation time of each, as they were. *)
Theorem updateStatus_frame :
  forall (id : string) (status : value) (now : Z) (w : World),
    let w' := snd (update_status id status now w) in
    map Order._id (orders w') = map Order._id (orders w)
    /\ map Order.items (orders w') = map Order.items (orders w)
    /\ map Order.total (orders w') = map Order.total (orders w)
    /\ map Order.createdAt (orders w') = map Order.createdAt (orders w)
    /\ managers w' = managers w.
Proof.
  intros id status now w.
  destruct (updateStatus_pointwise id status now w) as (u & H & Hm).
  cbv zeta.
  repeat split; try exact Hm;
    (apply (pointwise_map _ (Order.apply_update u now)); [|exact H]);
    intros o; destruct u as [[s|]|]; reflexivity.
Qed.

(** X8.  Two updates of the same order in a row leave the collection as the
    second one alone would: the last status wins. *)
Theorem updateStatus_last_wins :
  forall (id : string) (s1 s2 : string) (now1 now2 : Z) (w : World),
    orders (snd (update_status id (VStr s2) now2
                               (snd (update_status id (VStr s1) now1 w))))
    = orders (snd (update_status id (VStr s2) now2 w)).
Proof.
  intros id s1 s2 now1 now2 w.
  destruct (castObjectId (VStr id)) as [oid|] eqn:Hid;
    [|unfold updateStatus; rewrite Hid; reflexivity].
  rewrite !(updateStatus_string id oid) by exact Hid.
  destruct (Order.findByIdAndUpdate oid (Order.set_status s1 now1) (orders w))
    as [r1 d1] eqn:H1.
  cbn [snd orders].
  assert (Hgen : forall docs,
             snd (Order.findByIdAndUpdate oid (Order.set_status s2 now2)
                    (snd (Order.findByIdAndUpdate oid (Order.set_status s1 now1)
                                                  docs)))
             = snd (Order.findByIdAndUpdate oid (Order.set_status s2 now2) docs)).
  { induction docs as [|o docs IH]; [reflexivity|].
    cbn [Order.findByIdAndUpdate].
    destruct (Order._id o =? oid) eqn:E.
    - cbn [snd Order.findByIdAndUpdate Order.set_status Order._id].
      rewrite E. reflexivity.
    - destruct (Order.findByIdAndUpdate oid (Order.set_status s1 now1) docs)
        as [a b].
      cbn [snd Order.findByIdAndUpdate] in *. rewrite E.
      destruct (Order.findByIdAndUpdate oid (Order.set_status s2 now2) b)
        as [a' b'].
      destruct (Order.findByIdAndUpdate oid (Order.set_status s2 now2) docs)
        as [a'' b''].
      cbn [snd] in *. rewrite IH. reflexivity. }
  specialize (Hgen (orders w)). rewrite H1 in Hgen. cbn [snd] in Hgen.
  destruct (Order.findByIdAndUpdate oid (Order.set_status s2 now2) d1)
    as [r2 d2].
  destruct (Order.findByIdAndUpdate oid (Order.set_status s2 now2) (orders w))
    as [r3 d3].
  cbn [snd orders] in *. exact Hgen.
Qed.

(** X9.  Both invariants of the orders survive an update. *)
Theorem updateStatus_keeps_orders_sound :
  forall (id : string) (status : value) (now : Z) (w : World),
    totals_numeric (orders w) -> items_walkable (orders w) ->
    totals_numeric (orders (snd (update_status id status now w)))
    /\ items_walkable (orders (snd (update_status id status now w))).
Proof.
  intros id status now w Htot Hit.
  destruct (updateStatus_pointwise id status now w) as (u & H & _).
  unfold totals_numeric, items_walkable in *.
  induction H as [|o o' l l' Ho _ IH].
  - split; intros ? [].
  - destruct IH as [IH1 IH2].
    + intros x Hx. apply Htot. right. exact Hx.
    + intros x Hx. apply Hit. right. exact Hx.
    + pose proof (Htot o (or_introl eq_refl)) as Ht.
      pose proof (Hit o (or_introl eq_refl)) as Hi.
      split; intros x [<-|Hx]; auto; destruct Ho as [->| ->];
        try assumption; destruct u as [[s|]|]; assumption.
Qed.

(** X10.  Marking an order as ["deleted"] takes it out of the sales: the
    summary afterwards is the summary of the collection without it. *)
Theorem updateStatus_deleted_leaves_sales :
  forall (period : option string) (date : DateOnly) (start stop : Z)
         (id : string) (oid : ObjectId) (now : Z) (w : World)
         (before after : list Order.t) (o : Order.t),
    salesWindow LocalTZA period date = (Some start, Some stop) ->
    castObjectId (VStr id) = Some oid ->
    orders w = (before ++ o :: after)%list ->
    (forall d, In d before -> Order._id d <> oid) ->
    Order._id o = oid ->
    salesSummary LocalTZA period date
                 (snd (update_status id (VStr "deleted") now w))
    = salesSummary LocalTZA period date
                   (mkWorld (before ++ after) (managers w) (emitted w)).
Proof.
  intros period date start stop id oid now w before after o Hwin Hid Hw Hb Ho.
  rewrite (updateStatus_string id oid "deleted" now w Hid).
  rewrite Hw, (findByIdAndUpdate_present oid _ before after o Hb Ho).
  cbn [snd]. rewrite !(salesSummary_spec _ _ _ start stop Hwin). cbn [orders].
  assert (Hc : counted start stop (Order.set_status "deleted" now o) = false).
  { unfold counted, is_deleted. cbn. apply andb_false_r. }
  destruct (sales_skip start stop before after _ Hc) as [-> ->]. reflexivity.
Qed.

(** X11.  [topDish] does not look at the status: after any update it answers
    what it answered before. *)
Theorem topDish_after_updateStatus :
  forall (date : DateOnly) (id : string) (status : value) (now : Z)
         (w : World),
    topDish StringToNumber NumberToString LocalTZA date
            (snd (update_status id status now w))
    = topDish StringToNumber NumberToString LocalTZA date w.
Proof.
  intros date id status now w.
  destruct (updateStatus_pointwise id status now w) as (u & H & _).
  unfold topDish, find_between.
  destruct (dayWindow LocalTZA date) as [[start|] [stop|]]; try reflexivity.
  cbn [bind]. rewrite !count_orders_flat.
  replace (flat_map Order.items
             (filter (fun o => Order.in_window start stop o && true)
                     (orders (snd (update_status id status now w)))))
    with (flat_map Order.items
            (filter (fun o => Order.in_window start stop o && true) (orders w)));
    [reflexivity|].
  induction H as [|o o' l l' Ho _ IH]; [reflexivity|].
  cbn [filter]. destruct Ho as [->| ->].
  - destruct (Order.in_window start stop o && true); cbn [flat_map];
      rewrite IH; reflexivity.
  - replace (Order.in_window start stop (Order.apply_update u now o))
      with (Order.in_window start stop o)
      by (destruct u as [[s|]|]; reflexivity).
    assert (Hitems : Order.items (Order.apply_update u now o) = Order.items o)
      by (destruct u as [[s|]|]; reflexivity).
    destruct (Order.in_window start stop o && true); cbn [flat_map];
      rewrite IH, ?Hitems; reflexivity.
Qed.

(** ** The list of the day's orders *)

Lemma insert_newest_perm (o : Order.t) (l : list Order.t) :
  Permutation (insert_newest o l) (o :: l).
Proof.
  induction l as [|x l IH]; cbn [insert_newest]; [reflexivity|].
  destruct (Order.createdAt o <? Order.createdAt x); [|reflexivity].
  rewrite IH. apply perm_swap.
Qed.

Lemma newest_first_perm (l : list Order.t) : Permutation (newest_first l) l.
Proof.
  induction l as [|o l IH]; cbn [newest_first fold_right]; [reflexivity|].
  fold (newest_first l). rewrite insert_newest_perm. constructor. exact IH.
Qed.

Lemma insert_newest_sorted (o : Order.t) (l : list Order.t) :
  StronglySorted not_older l -> StronglySorted not_older (insert_newest o l).
Proof.
  induction l as [|x l IH]; intros Hs; cbn [insert_newest].
  - repeat constructor.
  - inversion Hs as [|? ? Hl Hx]; subst.
    destruct (Z.ltb_spec (Order.createdAt o) (Order.createdAt x)) as [Hlt|Hge].
    + constructor; [exact (IH Hl)|].
      apply (Permutation_Forall (Permutation_sym (insert_newest_perm o l))).
      constructor; [unfold not_older; lia|exact Hx].
    + constructor; [exact Hs|].
      constructor; [unfold not_older; lia|].
      apply (Forall_impl _ (P := not_older x)); [|exact Hx].
      intros y Hy. unfold not_older in *. lia.
Qed.

Lemma newest_first_sorted (l : list Order.t) :
  StronglySorted not_older (newest_first l).
Proof.
  induction l as [|o l IH]; cbn [newest_first fold_right]; [constructor|].
  apply insert_newest_sorted. exact IH.
Qed.

(** X13.  [listOrders] answers with exactly the orders created inside the day
    window, each as often as it is stored and whatever its status, from
    the newest to the oldest. *)
Theorem listOrders_newest_first :
  forall (date : DateOnly) (w : World) (start stop : Z),
    dayWindow LocalTZA date = (Some start, Some stop) ->
    exists l,
      listOrders LocalTZA date w = Ok (mkResponse 200 (JOrders l))
      /\ Permutation l (filter (Order.in_window start stop) (orders w))
      /\ StronglySorted not_older l
      /\ (forall o, In o l
                    <-> In o (orders w)
                        /\ start <= Order.createdAt o < stop).
Proof.
  intros date w start stop Hwin. unfold listOrders. rewrite Hwin.
  cbn [find_between bind].
  rewrite (filter_ext _ (Order.in_window start stop))
    by (intros o; apply andb_true_r).
  eexists. split; [reflexivity|].
  split; [apply newest_first_perm|]. split; [apply newest_first_sorted|].
  intros o. split.
  - intros Ho. apply (Permutation_in _ (newest_first_perm _)) in Ho.
    apply filter_In in Ho. destruct Ho as [Hin Hw]. split; [exact Hin|].
    unfold Order.in_window in Hw. apply andb_prop in Hw. destruct Hw as [H1 H2].
    apply Z.leb_le in H1. apply Z.ltb_lt in H2. lia.
  - intros [Hin Hw].
    apply (Permutation_in _ (Permutation_sym (newest_first_perm _))).
    apply filter_In. split; [exact Hin|].
    unfold Order.in_window. apply andb_true_intro.
    split; [apply Z.leb_le|apply Z.ltb_lt]; lia.
Qed.

(** ** Sales on stores the server has filled *)

(** X14.  A payment verified inside the window, for a payload that brings
    neither a status nor a creation date, raises the sales of the window
    by the total the server has computed and their count by one. *)
Theorem verify_then_salesSummary :
  forall (key : string) (req props : list (string * value)) (now : Z)
         (w w' : World) (created : Order.t)
         (period : option string) (date : DateOnly) (start stop : Z),
    verify (Some key) req now w = (mkResponse 200 (JSuccessOrder created), w') ->
    field req "orderPayload" = VObj props ->
    field props "status" = VUndef ->
    field props "createdAt" = VUndef ->
    salesWindow LocalTZA period date = (Some start, Some stop) ->
    start <= now < stop ->
    salesSummary LocalTZA period date w'
    = Ok (mkResponse 200
            (JSales (add (sales_total start stop (orders w))
                         (Order.total created))
                    (S (sales_count start stop (orders w))))).
Proof.
  intros key req props now w w' created period date start stop
         Hrun Hp Hst Hat0 Hwin Hnow.
  destruct (verify_success _ req now w w' created Hrun)
    as (key' & total & _ & _ & _ & Hc & ->).
  rewrite Hp in Hc. cbn [own_props] in Hc.
  destruct (create_ok _ _ _ _ Hc) as (_ & _ & _ & Hat & Hs).
  rewrite field_set_other, Hst in Hs by discriminate. cbn in Hs.
  rewrite field_set_other, Hat0 in Hat by discriminate. cbn in Hat.
  rewrite (salesSummary_spec _ _ _ start stop Hwin). cbn [persisted orders].
  unfold sales_total, sales_count. rewrite !fold_left_app. cbn [fold_left].
  assert (Hcount : counted start stop created = true).
  { apply counted_iff. split; [|congruence].
    assert (Order.createdAt created = now) by congruence. lia. }
  rewrite Hcount. reflexivity.
Qed.

(** ** Login and the change of credentials *)

(** X17.  For a username and a password that are strings, [login]
    answers 200 exactly when some manager has this very username and
    this very password, and 401 with ["Invalid credentials"] exactly
    when none has. *)
Theorem login_exact_match :
  forall (username password : string) (w : World),
    (login storeQuery (VStr username) (VStr password) w
     = Ok (mkResponse 200 (JSuccess true))
     <-> exists m, In m (managers w) /\ has_credentials username password m)
    /\ (login storeQuery (VStr username) (VStr password) w
        = Ok (mkResponse 401 JInvalidCredentials)
        <-> forall m, In m (managers w)
                      -> ~ has_credentials username password m).
Proof.
  intros u p w. unfold login. rewrite findOne_strings. cbn [bind].
  destruct (find (Manager.matches u p) (managers w)) as [m|] eqn:Hf.
  - apply find_some in Hf. destruct Hf as [Hin Hmatch].
    apply matches_iff in Hmatch.
    split; split; try discriminate.
    + intros _. exists m. split; [exact Hin|exact Hmatch].
    + reflexivity.
    + intros Hnone. exfalso. exact (Hnone m Hin Hmatch).
  - split; split; try discriminate.
    + intros (m & Hin & Hmatch). apply matches_iff in Hmatch.
      rewrite (List.find_none _ _ Hf m Hin) in Hmatch. discriminate.
    + intros _ m Hin Hmatch. apply matches_iff in Hmatch.
      rewrite (List.find_none _ _ Hf m Hin) in Hmatch. discriminate.
    + reflexivity.
Qed.

Lemma save_ids (m : Manager.t) (docs : list Manager.t) :
  map Manager._id (Manager.save m docs) = map Manager._id docs.
Proof.
  induction docs as [|d docs IH]; cbn [Manager.save map]; [reflexivity|].
  destruct (Z.eqb_spec (Manager._id d) (Manager._id m)) as [E|_]; cbn [map].
  - rewrite E. reflexivity.
  - rewrite IH. reflexivity.
Qed.

Lemma save_In (m d : Manager.t) (docs : list Manager.t) :
  In d docs -> Manager._id d = Manager._id m -> In m (Manager.save m docs).
Proof.
  induction docs as [|x docs IH]; intros Hin Hid; cbn [Manager.save].
  - destruct Hin.
  - destruct (Z.eqb_spec (Manager._id x) (Manager._id m)) as [_|Hne].
    + left. reflexivity.
    + right. apply IH; [|exact Hid].
      destruct Hin as [->|Hin]; [contradiction|exact Hin].
Qed.

(** X18.  Whatever is sent and whatever the outcome, a change of
    credentials keeps the managers and their identifiers in place, and
    touches neither the orders nor the broadcast channel. *)
Theorem changeCredentials_keeps_ids :
  forall (currentUser currentPassword newUser newPassword : value) (w : World),
    let w' := snd (changeCredentials NumberToString storeQuery
                                     currentUser currentPassword
                                     newUser newPassword w) in
    map Manager._id (managers w') = map Manager._id (managers w)
    /\ orders w' = orders w
    /\ emitted w' = emitted w.
Proof.
  intros cu cp nu np w. unfold changeCredentials.
  destruct (Manager.findOne storeQuery cu cp (managers w)) as [[m|]|e];
    cbn [snd managers orders emitted]; try (repeat split; reflexivity).
  destruct (castString NumberToString nu) as [u|e];
    destruct (castString NumberToString np) as [p|e'];
    cbn [snd managers orders emitted]; try (repeat split; reflexivity).
  split; [apply save_ids|split; reflexivity].
Qed.

(** X19.  After a successful change the new credentials log in. *)
Theorem changeCredentials_then_login :
  forall (currentUser currentPassword newUser newPassword : string) (w : World),
    (exists m, In m (managers w)
               /\ has_credentials currentUser currentPassword m) ->
    fst (changeCredentials NumberToString storeQuery
                           (VStr currentUser) (VStr currentPassword)
                           (VStr newUser) (VStr newPassword) w)
    = Ok (mkResponse 200 (JSuccess true))
    /\ login storeQuery (VStr newUser) (VStr newPassword)
             (snd (changeCredentials NumberToString storeQuery
                                     (VStr currentUser) (VStr currentPassword)
                                     (VStr newUser) (VStr newPassword) w))
       = Ok (mkResponse 200 (JSuccess true)).
Proof.
  intros cu cp nu np w (m0 & Hin0 & Hm0).
  unfold changeCredentials, login. rewrite findOne_strings.
  cbn [castString].
  destruct (find (Manager.matches cu cp) (managers w)) as [m|] eqn:Hf.
  - split; [reflexivity|]. cbn [snd managers].
    apply find_some in Hf. destruct Hf as [Hin _].
    set (m' := Manager.mk (Manager._id m) (Some nu) (Some np)).
    assert (Hin' : In m' (Manager.save m' (managers w)))
      by (apply (save_In m' m); [exact Hin|reflexivity]).
    rewrite findOne_strings. cbn [bind].
    destruct (find (Manager.matches nu np) (Manager.save m' (managers w)))
      eqn:Hf'; [reflexivity|].
    pose proof (List.find_none _ _ Hf' m' Hin') as Hno.
    unfold Manager.matches, m' in Hno. cbn in Hno.
    rewrite !String.eqb_refl in Hno. discriminate.
  - exfalso.
    pose proof (List.find_none _ _ Hf m0 Hin0) as Hno.
    apply matches_iff in Hm0. congruence.
Qed.

(** X20.  After a successful change to different credentials, the old ones
    no longer log in, provided one manager only had them. *)
Theorem changeCredentials_retires_old :
  forall (currentUser currentPassword newUser newPassword : string) (w : World)
         (m : Manager.t),
    NoDup (map Manager._id (managers w)) ->
    In m (managers w) ->
    has_credentials currentUser currentPassword m ->
    (forall d, In d (managers w) ->
               has_credentials currentUser currentPassword d -> d = m) ->
    newUser <> currentUser \/ newPassword <> currentPassword ->
    login storeQuery (VStr currentUser) (VStr currentPassword)
          (snd (changeCredentials NumberToString storeQuery
                                  (VStr currentUser) (VStr currentPassword)
                                  (VStr newUser) (VStr newPassword) w))
    = Ok (mkResponse 401 JInvalidCredentials).
Proof.
  intros cu cp nu np w m Hnd Hin Hm Honly Hdiff.
  apply in_split in Hin. destruct Hin as (before & after & Hw).
  assert (Hb : forall d, In d before -> Manager.matches cu cp d = false).
  { intros d Hd. apply not_matching. intros Hcred.
    assert (d = m).
    { apply Honly; [rewrite Hw; apply in_or_app; left; exact Hd|exact Hcred]. }
    subst d. rewrite Hw, map_app in Hnd. cbn [map] in Hnd.
    apply NoDup_remove_2 in Hnd. apply Hnd.
    apply in_or_app. left. apply in_map. exact Hd. }
  assert (Hf : find (Manager.matches cu cp) (managers w) = Some m).
  { rewrite Hw. apply find_first; [apply matches_iff; exact Hm|exact Hb]. }
  unfold changeCredentials, login. rewrite !findOne_strings, Hf.
  cbn [castString snd managers bind].
  rewrite Hw in *.
  assert (Hids : forall d, In d before -> Manager._id d <> Manager._id m).
  { intros d Hd E. rewrite map_app in Hnd. cbn [map] in Hnd.
    apply NoDup_remove_2 in Hnd. apply Hnd.
    apply in_or_app. left. rewrite <- E. apply in_map. exact Hd. }
  rewrite (save_split m (Manager.mk (Manager._id m) (Some nu) (Some np))
                      before after eq_refl Hids).
  clear Hf.
  destruct (find (Manager.matches cu cp)
                 (before ++ Manager.mk (Manager._id m) (Some nu) (Some np)
                         :: after)) as [d|] eqn:Hf'; [|reflexivity].
  exfalso. apply find_some in Hf'. destruct Hf' as [Hin Hd].
  apply in_app_or in Hin. destruct Hin as [Hin|[<-|Hin]].
  - rewrite (Hb d Hin) in Hd. discriminate.
  - apply matches_iff in Hd. destruct Hd as [H1 H2]. cbn in H1, H2.
    destruct Hdiff; congruence.
  - apply matches_iff in Hd.
    assert (d = m)
      by (apply Honly; [apply in_or_app; right; right; exact Hin|exact Hd]).
    subst d. rewrite map_app in Hnd. cbn [map] in Hnd.
    apply NoDup_remove_2 in Hnd. apply Hnd.
    apply in_or_app. right. apply in_map. exact Hin.
Qed.

(** ** From a verified payment to the other routes *)

(** X21.  The identifier of a new order finds it again: a status update
    under it changes that order and answers with it. *)
Theorem verify_then_updateStatus :
  forall (key : string) (req : list (string * value)) (now later : Z)
         (w w' : World) (created : Order.t) (id status : string),
    verify (Some key) req now w = (mkResponse 200 (JSuccessOrder created), w') ->
    castObjectId (VStr id) = Some (Order._id created) ->
    update_status id (VStr status) later w'
    = (Ok (mkResponse 200 (JOrder (Some (Order.set_status status later created)))),
       mkWorld (orders w ++ [Order.set_status status later created])
               (managers w)
               (emitted w ++ [newOrder created;
                              orderUpdated
                                (Some (Order.set_status status later created))])).
Proof.
  intros key req now later w w' created id status Hrun Hid.
  destruct (verify_success _ req now w w' created Hrun)
    as (key' & total & _ & _ & _ & Hc & ->).
  destruct (create_ok _ _ _ _ Hc) as (_ & Hnew & _).
  apply assignId_new in Hnew.
  rewrite (updateStatus_string id _ status later _ Hid).
  cbn [persisted orders managers emitted].
  rewrite (findByIdAndUpdate_present (Order._id created) _ (orders w) [] created).
  - rewrite <- app_assoc. reflexivity.
  - intros d Hd E. apply Hnew. rewrite <- E. apply in_map. exact Hd.
  - reflexivity.
Qed.

(** X22.  An order paid inside the day window, whose payload brings no
    creation date, is in the list of that day. *)
Theorem verify_then_listOrders :
  forall (key : string) (req : list (string * value)) (now : Z)
         (w w' : World) (created : Order.t)
         (date : DateOnly) (start stop : Z),
    verify (Some key) req now w = (mkResponse 200 (JSuccessOrder created), w') ->
    prop (field req "orderPayload") "createdAt" = VUndef ->
    dayWindow LocalTZA date = (Some start, Some stop) ->
    start <= now < stop ->
    exists l,
      listOrders LocalTZA date w' = Ok (mkResponse 200 (JOrders l))
      /\ In created l.
Proof.
  intros key req now w w' created date start stop Hrun Hat0 Hwin Hnow.
  destruct (verify_success _ req now w w' created Hrun)
    as (key' & total & _ & _ & Ht & Hc & ->).
  destruct (items_total_ok _ _ Ht) as (props & items & Hp & _).
  rewrite Hp in *. cbn [prop own_props] in *.
  destruct (create_ok _ _ _ _ Hc) as (_ & _ & _ & Hat & _).
  rewrite field_set_other, Hat0 in Hat by discriminate. cbn in Hat.
  assert (Hcreated : Order.createdAt created = now) by congruence.
  unfold listOrders. rewrite Hwin. cbn [find_between bind].
  eexists. split; [reflexivity|].
  apply (Permutation_in _ (Permutation_sym (newest_first_perm _))).
  apply filter_In. cbn [persisted orders]. split.
  - apply in_or_app. right. left. reflexivity.
  - unfold Order.in_window. rewrite Hcreated, andb_true_r.
    apply andb_true_intro. split; [apply Z.leb_le|apply Z.ltb_lt]; lia.
Qed.

(** X23.  The signature covers the two gateway identifiers only: replacing
    the payload of a request never changes whether its signature is
    refused. *)
Theorem verify_signature_ignores_payload :
  forall (key : string) (req : list (string * value)) (payload : value)
         (now : Z) (w : World),
    verify (Some key) req now w = (mkResponse 200 (JSuccess false), w)
    <-> verify (Some key) (set req "orderPayload" payload) now w
        = (mkResponse 200 (JSuccess false), w).
Proof.
  intros key req payload now w.
  rewrite !verify_cases. unfold signed_text.
  rewrite !field_set_other by discriminate.
  destruct (a <- print (field req "razorpay_order_id") ;;
            b <- print (field req "razorpay_payment_id") ;;
            Ok (a ++ "|" ++ b)) as [text|e]; [|reflexivity].
  destruct (strict_eq_string _ _); [|split; intros _; reflexivity].
  split; intros H; exfalso.
  - destruct (total_of _); [destruct (create _ _ _)|]; discriminate.
  - destruct (total_of _); [destruct (create _ _ _)|]; discriminate.
Qed.
End Properties.

(* ================================================================== *)
(** * Worked examples *)


(** The total is a sum of doubles: 2^53 * 1 + 1 * 1 is stored as
    2^53. *)
Lemma verify_total_is_rounded :
  exists created w',
    sample_verify (sample_request large_payload) noon_jan_15 empty_world
    = (mkResponse 200 (JSuccessOrder created), w')
    /\ Order.total created = 9007199254740992%float.
Proof. eexists. eexists. split; reflexivity. Qed.

(** C2 fails as stated: a correctly signed request that carries no
    [orderPayload] is answered with the 500 failure, not with
    [{success:true, order}], and nothing is stored; and a request whose
    order id cannot be printed is answered with the 500 failure, not
    with [{success:false}], whatever its signature. *)
Lemma verify_signature_counterexample :
  signature_valid sample_hmac decimal "s3cret" bare_request = true
  /\ sample_verify bare_request noon_jan_15 empty_world
     = (mkResponse 500 (JSuccess false), empty_world)
  /\ (forall created,
         fst (sample_verify bare_request noon_jan_15 empty_world)
         <> mkResponse 200 (JSuccessOrder created))
  /\ signature_valid sample_hmac decimal "s3cret" unprintable_request = false
  /\ sample_verify unprintable_request noon_jan_15 empty_world
     = (mkResponse 500 (JSuccess false), empty_world).
Proof.
  split; [reflexivity|]. split; [reflexivity|].
  split; [|split; reflexivity].
  intros created. vm_compute. discriminate.
Qed.

(** C2 as amended, on the sample request. *)
Lemma verify_signature_outcomes_witness :
  sample_verify (sample_request sample_payload) noon_jan_15 empty_world
  = (mkResponse 200
       (JSuccessOrder (sample_order 1 noon_jan_15 sample_items 800%float "new")),
     persisted empty_world
               (sample_order 1 noon_jan_15 sample_items 800%float "new")).
Proof.
  exact (proj1 (proj2 (proj2 (verify_signature_outcomes
                                sample_hmac no_numerals decimal hex24 no_dates
                                updated_now "s3cret"
                                (sample_request sample_payload)
                                noon_jan_15 empty_world)
                             "order_9A|pay_29Q" eq_refl)
                      eq_refl)
               800%float
               (sample_order 1 noon_jan_15 sample_items 800%float "new")
               eq_refl eq_refl).
Defined.

(** C3 fails as stated: an item whose price is [null] is malformed, yet
    [null * 2] is [0], the request succeeds and an order with a zero
    total is stored. *)
Lemma verify_malformed_items_counterexample :
  signature_valid sample_hmac decimal "s3cret" (sample_request unpriced_payload)
  = true
  /\ items_malformed (field (sample_request unpriced_payload) "orderPayload")
     = true
  /\ sample_verify (sample_request unpriced_payload) noon_jan_15 empty_world
     = (mkResponse 200
          (JSuccessOrder
             (sample_order 1 noon_jan_15 unpriced_items 0%float "new")),
        persisted empty_world
                  (sample_order 1 noon_jan_15 unpriced_items 0%float "new")).
Proof. repeat split. Qed.

(** C3 as amended, on a payload without [items]. *)
Lemma verify_unreadable_items_500_witness :
  sample_verify (sample_request [("customerName", VStr "Asha")])
                noon_jan_15 empty_world
  = (mkResponse 500 (JSuccess false), empty_world).
Proof.
  apply (verify_unreadable_items_500 sample_hmac no_numerals decimal hex24
           no_dates updated_now "s3cret"
           (sample_request [("customerName", VStr "Asha")])
           noon_jan_15 empty_world).
  - reflexivity.
  - left. reflexivity.
Defined.

(** C4 fails as stated: when the payload carries an [_id], the order is
    stored under it, and the same request sent again is answered with
    the 500 failure: the store refuses a second document under that
    identifier, and one order only is stored. *)
Lemma verify_twice_counterexample :
  exists (o1 : Order.t) (w1 : World),
    sample_verify (sample_request payload_with_id) noon_jan_15 empty_world
    = (mkResponse 200 (JSuccessOrder o1), w1)
    /\ hex24 (VStr chosen_id) = Some (Order._id o1)
    /\ sample_verify (sample_request payload_with_id) (noon_jan_15 + 60000) w1
       = (mkResponse 500 (JSuccess false), w1)
    /\ orders w1 = [o1].
Proof. eexists. eexists. repeat split. Qed.

(** C4 as amended, on the sample request sent twice, a minute apart. *)
Lemma verify_twice_two_orders_witness :
  exists (o2 : Order.t) (w2 : World),
    sample_verify (sample_request sample_payload) (noon_jan_15 + 60000)
      (persisted empty_world
                 (sample_order 1 noon_jan_15 sample_items 800%float "new"))
    = (mkResponse 200 (JSuccessOrder o2), w2)
    /\ orders w2
       = (orders empty_world
          ++ [sample_order 1 noon_jan_15 sample_items 800%float "new"; o2])%list
    /\ Order._id (sample_order 1 noon_jan_15 sample_items 800%float "new")
       <> Order._id o2
    /\ Order.items o2
       = Order.items (sample_order 1 noon_jan_15 sample_items 800%float "new")
    /\ Order.total o2
       = Order.total (sample_order 1 noon_jan_15 sample_items 800%float "new").
Proof.
  apply (verify_twice_two_orders sample_hmac no_numerals decimal hex24
           no_dates updated_now "s3cret"
           (sample_request sample_payload) noon_jan_15 (noon_jan_15 + 60000)
           empty_world); reflexivity.
Defined.

(** C5 fails as stated: for 2024-01-31 and ["month"] the window closes
    on 2024-03-02, which is no day of February; on a server five hours
    behind UTC the window for 2024-03-01 and ["month"] closes on
    2024-03-30, since it is still February there when the date opens;
    and in New York the day of 2024-03-10, on which the clocks are
    put forward, gets a window of 23 hours. *)
Lemma salesWindow_month_end_counterexample :
  salesWindow IST (Some "month") jan_31
  = (parseDate jan_31, parseDate (mkDateOnly 2024 3 2))
  /\ valid_date (next_month jan_31) = false
  /\ (forall d : Z,
         valid_date (mkDateOnly 2024 2 d) = true ->
         snd (salesWindow IST (Some "month") jan_31)
         <> parseDate (mkDateOnly 2024 2 d))
  /\ salesWindow EST (Some "month") (mkDateOnly 2024 3 1)
     = (parseDate (mkDateOnly 2024 3 1), parseDate (mkDateOnly 2024 3 30))
  /\ salesWindow New_York None mar_10
     = (Some 1710028800000, Some (1710028800000 + 23 * 3600000)).
Proof.
  split; [reflexivity|]. split; [reflexivity|].
  split; [|split; reflexivity].
  intros d Hv. change (snd (salesWindow IST (Some "month") jan_31))
    with (Some 1709337600000).
  destruct (parseDate_valid _ Hv) as [-> _].
  apply valid_date_fields in Hv. cbn [year month day] in *.
  change (DaysInMonth 2024 (2 - 1)) with 29 in Hv.
  rewrite MakeDay_in_year by lia.
  change (DayFromYear 2024) with 19723.
  change (daysBeforeMonth (InLeapYear 2024) (2 - 1)) with 31.
  unfold msPerDay. intros H.
  assert (H' : 1709337600000 = (19723 + 31 + d - 1) * 86400000)
    by congruence.
  lia.
Qed.

(** C5 as amended, on the example of the specification: for
    2024-01-15 and ["month"] the window is [2024-01-15, 2024-02-15). *)
Lemma salesWindow_bounds_witness :
  salesWindow IST (Some "month") jan_15
  = (parseDate jan_15, parseDate (mkDateOnly 2024 2 15)).
Proof.
  destruct (salesWindow_bounds IST (Some "month") jan_15 eq_refl)
    as (start & _ & Hcases).
  destruct Hcases as (_ & Hmonth & _).
  - unfold IST, msPerDay. lia.
  - assert (Hpos : 0 <= IST start true) by (unfold IST; lia).
    destruct (Hmonth eq_refl Hpos eq_refl) as (first & _ & Hsteady).
    destruct (Hsteady eq_refl) as (_ & Hsame).
    exact (Hsame eq_refl).
Defined.

(** C6, on a day with orders of 500, 300 and 250 and a deleted one of
    900: the total is 1050 and the count 3. *)
Lemma salesSummary_counts_undeleted_witness :
  salesSummary IST None jan_15 busy_day_with_a_deletion
  = Ok (mkResponse 200 (JSales 1050%float 3)).
Proof.
  exact (proj1 (salesSummary_counts_undeleted IST None jan_15
                  busy_day_with_a_deletion
                  1705276800000 1705363200000 eq_refl)).
Defined.

(** C7 fails as stated: a day whose only order has no item gets [null];
    a dish called ["65"], sold as often as a dish met before it, is
    listed first by [Object.entries] and wins; under the name
    ["toString"] the count starts from the inherited method, and a
    quantity sent as the string ["2"] is appended to ["0"], so that
    neither count is a quantity; and a dish of which 2^53 + 1 pieces
    are sold loses against one met before it of which 2^53 are sold,
    since its count is rounded to 2^53. *)
Lemma topDish_counterexample :
  (exists o, In o (orders itemless_day)
             /\ Order.in_window 1705276800000 1705363200000 o = true)
  /\ dayWindow IST jan_15 = (Some 1705276800000, Some 1705363200000)
  /\ sample_topDish jan_15 itemless_day
     = Ok (mkResponse 200 (JTopDish None))
  /\ sample_topDish jan_15 numbered_day
     = Ok (mkResponse 200 (JTopDish (Some ("65", PNum 2%float))))
  /\ sample_topDish jan_15 method_day
     = Ok (mkResponse 200
             (JTopDish (Some ("toString",
                              PStr "function toString() { [native code] }2"))))
  /\ sample_topDish jan_15 quoted_day
     = Ok (mkResponse 200 (JTopDish (Some ("Margherita", PStr "02"))))
  /\ sample_topDish jan_15 rounding_day
     = Ok (mkResponse 200
             (JTopDish (Some ("Calzone", PNum 9007199254740992%float)))).
Proof.
  split.
  - eexists. split; [left; reflexivity|reflexivity].
  - repeat split.
Qed.

(** C7 as amended, on the example of the specification: two dishes
    sold twice each, the first one met wins. *)
Lemma topDish_first_best_seller_witness :
  sample_topDish jan_15 tied_day
  = Ok (mkResponse 200 (JTopDish (Some ("Margherita", PNum 2%float)))).
Proof.
  destruct (proj2 (topDish_first_best_seller no_numerals decimal IST jan_15
                     tied_day 1705276800000 1705363200000
                     eq_refl eq_refl eq_refl))
    as (name & count & before & after & Htop & Hcount & Hseen & Hb & _).
  - discriminate.
  - change (topDish no_numerals decimal IST jan_15 tied_day)
      with (sample_topDish jan_15 tied_day) in Htop.
    rewrite Htop.
    change (first_seen _) with ["Margherita"; "Pepperoni"] in Hseen.
    destruct before as [|b [|b' before]].
    + injection Hseen as <- _. rewrite Hcount. reflexivity.
    + injection Hseen as <- <- _.
      specialize (Hb "Margherita" (or_introl eq_refl)).
      rewrite Hcount in Hb. discriminate.
    + injection Hseen as _ _ Hrest.
      destruct before; discriminate.
Defined.

(** A day on which a dish met later has sold more: it wins. *)
Lemma topDish_busy_day :
  sample_topDish jan_15 busy_day
  = Ok (mkResponse 200 (JTopDish (Some ("Margherita", PNum 3%float))))
  /\ sample_topDish jan_15 busy_day_with_a_deletion
     = Ok (mkResponse 200 (JTopDish (Some ("Pepperoni", PNum 4%float)))).
Proof. split; reflexivity. Qed.

(** C8, on a day before the only order. *)
Lemma topDish_no_orders_witness :
  sample_topDish (mkDateOnly 2024 1 14) tied_day
  = Ok (mkResponse 200 (JTopDish None)).
Proof.
  apply (topDish_no_orders no_numerals decimal IST (mkDateOnly 2024 1 14)
           tied_day 1705190400000 1705276800000).
  - reflexivity.
  - intros o [<-|[<-|[]]]; reflexivity.
Defined.

(** C9 fails as stated: an identifier that is no identifier for the
    store, such as [abc], names no stored order, yet the update is
    refused before any order is looked for: the handler throws, nothing
    is answered and nothing is broadcast. *)
Lemma updateStatus_malformed_id_counterexample :
  hex24 (VStr "abc") = None
  /\ sample_updateStatus "abc" (VStr "ready") (noon_jan_15 + 60000) itemless_day
     = (Throw StoreError, itemless_day).
Proof. split; reflexivity. Qed.

(** C9 as amended, on an identifier that no order has. *)
Lemma updateStatus_unknown_id_witness :
  sample_updateStatus id_7 (VStr "ready") (noon_jan_15 + 60000) itemless_day
  = (Ok (mkResponse 200 (JOrder None)),
     mkWorld (orders itemless_day) [] [orderUpdated None]).
Proof.
  apply (updateStatus_unknown_id decimal hex24 true id_7 7 (VStr "ready")
           (Some (Some "ready")) (noon_jan_15 + 60000) itemless_day).
  - reflexivity.
  - reflexivity.
  - intros o [<-|[]]. discriminate.
Defined.



(** ** More worked examples *)

(** A request whose signature is the number 7. *)
Lemma verify_signature_not_a_string_witness :
  sample_verify
    [("razorpay_order_id", VStr "order_9A"); ("razorpay_signature", VNum 7%float)]
    noon_jan_15 empty_world
  = (mkResponse 200 (JSuccess false), empty_world).
Proof.
  apply (verify_signature_not_a_string sample_hmac no_numerals decimal hex24
           no_dates updated_now "s3cret").
  intros s. vm_compute. discriminate.
Defined.

(** A request that chooses its identifier, on a collection that holds
    order 1. *)
Lemma verify_keeps_ids_distinct_witness :
  NoDup (map Order._id
             (orders (snd (sample_verify (sample_request payload_with_id)
                                         noon_jan_15 itemless_day)))).
Proof.
  apply (verify_keeps_ids_distinct sample_hmac no_numerals decimal hex24
           no_dates updated_now).
  vm_compute. repeat constructor. intros [].
Defined.



(** Order 3 of the busy day is marked as served. *)
Lemma updateStatus_known_id_witness :
  exists o',
    sample_updateStatus id_3 (VStr "served") (noon_jan_15 + 180000) busy_day
    = (Ok (mkResponse 200 (JOrder (Some o'))),
       mkWorld ([sample_order 1 noon_jan_15
                              [line "Margherita" 250%float 2%float]
                              500%float "new";
                 sample_order 2 (noon_jan_15 + 120000)
                              [line "Pepperoni" 300%float 1%float]
                              300%float "new"] ++ o' :: [])
               (managers busy_day)
               (emitted busy_day ++ [orderUpdated (Some o')]))
    /\ Order.status o' = Some "served"
    /\ Order.updatedAt o' = noon_jan_15 + 180000
    /\ Order._id o' = 3
    /\ Order.items o'
       = Order.items (sample_order 3 (noon_jan_15 + 60000)
                                   [line "Margherita" 250%float 1%float]
                                   250%float "ready")
    /\ Order.total o'
       = Order.total (sample_order 3 (noon_jan_15 + 60000)
                                   [line "Margherita" 250%float 1%float]
                                   250%float "ready")
    /\ Order.createdAt o'
       = Order.createdAt (sample_order 3 (noon_jan_15 + 60000)
                                       [line "Margherita" 250%float 1%float]
                                       250%float "ready").
Proof.
  apply (updateStatus_known_id decimal hex24 true id_3 3 "served"
           (noon_jan_15 + 180000) busy_day).
  - reflexivity.
  - reflexivity.
  - intros d [<-|[<-|[]]]; vm_compute; discriminate.
  - reflexivity.
Defined.

Lemma updateStatus_keeps_orders_sound_witness :
  totals_numeric
    (orders (snd (sample_updateStatus id_3 (VStr "served")
                                      (noon_jan_15 + 180000) busy_day)))
  /\ items_walkable
       (orders (snd (sample_updateStatus id_3 (VStr "served")
                                         (noon_jan_15 + 180000) busy_day))).
Proof.
  apply (updateStatus_keeps_orders_sound decimal hex24 true id_3 (VStr "served")
           (noon_jan_15 + 180000) busy_day).
  - intros o [<-|[<-|[<-|[]]]]; reflexivity.
  - intros o [<-|[<-|[<-|[]]]]; reflexivity.
Defined.

(** Order 2 of the busy day is deleted: the sales are those of orders 1
    and 3. *)
Lemma updateStatus_deleted_leaves_sales_witness :
  salesSummary IST None jan_15
               (snd (sample_updateStatus id_2 (VStr "deleted")
                                         (noon_jan_15 + 180000) busy_day))
  = salesSummary IST None jan_15
      (mkWorld ([sample_order 1 noon_jan_15
                              [line "Margherita" 250%float 2%float]
                              500%float "new"]
                ++ [sample_order 3 (noon_jan_15 + 60000)
                                 [line "Margherita" 250%float 1%float]
                                 250%float "ready"])
               (managers busy_day) (emitted busy_day)).
Proof.
  apply (updateStatus_deleted_leaves_sales decimal hex24 true IST None jan_15
           1705276800000 1705363200000 id_2 2 (noon_jan_15 + 180000) busy_day
           [sample_order 1 noon_jan_15 [line "Margherita" 250%float 2%float]
                         500%float "new"]
           [sample_order 3 (noon_jan_15 + 60000)
                         [line "Margherita" 250%float 1%float] 250%float "ready"]
           (sample_order 2 (noon_jan_15 + 120000)
                         [line "Pepperoni" 300%float 1%float] 300%float "new")).
  - reflexivity.
  - reflexivity.
  - reflexivity.
  - intros d [<-|[]]. vm_compute. discriminate.
  - reflexivity.
Defined.

(** 2024-01-15 on a server five hours behind UTC. *)
Lemma dayWindow_one_day_witness :
  dayWindow EST jan_15 = (Some 1705276800000, Some (1705276800000 + msPerDay))
  /\ (forall period, period <> Some "week" -> period <> Some "month" ->
                     salesWindow EST period jan_15 = dayWindow EST jan_15).
Proof.
  destruct (dayWindow_one_day EST jan_15 eq_refl) as (start & Hp & Hday & Hsame).
  assert (Hstart : start = 1705276800000) by (vm_compute in Hp; congruence).
  subst start. split; [|exact Hsame].
  apply Hday; [unfold EST, msPerDay; lia|reflexivity].
Defined.

Lemma listOrders_newest_first_witness :
  exists l,
    listOrders IST jan_15 busy_day = Ok (mkResponse 200 (JOrders l))
    /\ Permutation l (filter (Order.in_window 1705276800000 1705363200000)
                             (orders busy_day))
    /\ StronglySorted not_older l
    /\ (forall o, In o l
                  <-> In o (orders busy_day)
                      /\ 1705276800000 <= Order.createdAt o < 1705363200000).
Proof.
  apply (listOrders_newest_first IST jan_15 busy_day). reflexivity.
Defined.

(** The sample payment, made at noon on a busy day: the sales go from
    1050 to 1850. *)
Lemma verify_then_salesSummary_witness :
  salesSummary IST None jan_15
               (persisted busy_day
                          (sample_order 4 noon_jan_15 sample_items 800%float
                                        "new"))
  = Ok (mkResponse 200 (JSales 1850%float 4)).
Proof.
  apply (verify_then_salesSummary sample_hmac no_numerals decimal hex24
           no_dates updated_now IST "s3cret"
           (sample_request sample_payload) sample_payload noon_jan_15 busy_day
           (persisted busy_day
                      (sample_order 4 noon_jan_15 sample_items 800%float "new"))
           (sample_order 4 noon_jan_15 sample_items 800%float "new")
           None jan_15 1705276800000 1705363200000).
  - reflexivity.
  - reflexivity.
  - reflexivity.
  - reflexivity.
  - reflexivity.
  - unfold noon_jan_15. lia.
Defined.

(** The chef becomes the baker. *)
Lemma changeCredentials_then_login_witness :
  fst (sample_changeCredentials (VStr "chef") (VStr "dough")
                                (VStr "baker") (VStr "yeast") two_managers)
  = Ok (mkResponse 200 (JSuccess true))
  /\ sample_login (VStr "baker") (VStr "yeast")
       (snd (sample_changeCredentials (VStr "chef") (VStr "dough")
                                      (VStr "baker") (VStr "yeast")
                                      two_managers))
     = Ok (mkResponse 200 (JSuccess true)).
Proof.
  apply (changeCredentials_then_login decimal ne_null "chef" "dough"
           "baker" "yeast" two_managers).
  exists (Manager.mk 2 (Some "chef") (Some "dough")).
  split; [right; left; reflexivity|split; reflexivity].
Defined.

Lemma changeCredentials_retires_old_witness :
  sample_login (VStr "chef") (VStr "dough")
    (snd (sample_changeCredentials (VStr "chef") (VStr "dough")
                                   (VStr "baker") (VStr "yeast") two_managers))
  = Ok (mkResponse 401 JInvalidCredentials).
Proof.
  apply (changeCredentials_retires_old decimal ne_null "chef" "dough"
           "baker" "yeast" two_managers
           (Manager.mk 2 (Some "chef") (Some "dough"))).
  - vm_compute. repeat constructor; simpl; intuition discriminate.
  - right. left. reflexivity.
  - split; reflexivity.
  - intros d [<-|[<-|[]]] [H1 H2]; [discriminate|reflexivity].
  - left. discriminate.
Defined.

Lemma verify_then_updateStatus_witness :
  sample_updateStatus id_4 (VStr "served") (noon_jan_15 + 180000)
    (persisted busy_day
               (sample_order 4 noon_jan_15 sample_items 800%float "new"))
  = (Ok (mkResponse 200
           (JOrder (Some (Order.set_status "served" (noon_jan_15 + 180000)
                            (sample_order 4 noon_jan_15 sample_items 800%float
                                          "new"))))),
     mkWorld (orders busy_day
              ++ [Order.set_status "served" (noon_jan_15 + 180000)
                    (sample_order 4 noon_jan_15 sample_items 800%float "new")])
             (managers busy_day)
             (emitted busy_day
              ++ [newOrder (sample_order 4 noon_jan_15 sample_items 800%float
                                         "new");
                  orderUpdated
                    (Some (Order.set_status "served" (noon_jan_15 + 180000)
                             (sample_order 4 noon_jan_15 sample_items
                                           800%float "new")))])).
Proof.
  apply (verify_then_updateStatus sample_hmac no_numerals decimal hex24
           no_dates updated_now true "s3cret"
           (sample_request sample_payload) noon_jan_15 (noon_jan_15 + 180000)
           busy_day).
  - reflexivity.
  - reflexivity.
Defined.

Lemma verify_then_listOrders_witness :
  exists l,
    listOrders IST jan_15
               (persisted busy_day
                          (sample_order 4 noon_jan_15 sample_items 800%float
                                        "new"))
    = Ok (mkResponse 200 (JOrders l))
    /\ In (sample_order 4 noon_jan_15 sample_items 800%float "new") l.
Proof.
  apply (verify_then_listOrders sample_hmac no_numerals decimal hex24
           no_dates updated_now IST "s3cret"
           (sample_request sample_payload) noon_jan_15 busy_day
           (persisted busy_day
                      (sample_order 4 noon_jan_15 sample_items 800%float "new"))
           (sample_order 4 noon_jan_15 sample_items 800%float "new")
           jan_15 1705276800000 1705363200000).
  - reflexivity.
  - reflexivity.
  - reflexivity.
  - unfold noon_jan_15. lia.
Defined.
